(** * Request orchestration and admission control of the RAG knowledge system

    A shallow embedding of the route handlers and of the rate limiter of the
    Next.js application, over an explicit model of the Prisma store.

    - [src/lib/rate-limit.ts]: [checkRateLimit]
    - chat route (POST /api/chat): [Chat.POST]
    - upload route (POST /api/upload): [Upload.POST]
    - password route (PUT): [Password.PUT]

    The model comes first, then the vocabulary the properties are stated
    in, then the properties.

    Every handler is an [async] function that awaits store calls one after
    the other, inside [try { ... } catch { 500 }].  It is embedded as a
    state-passing computation over the store that completes normally, throws,
    or stays pending on an await that never settles. *)

From stdpp Require Import gmap strings list fin_maps pretty sorting.
From Stdlib Require Import ZArith QArith Qcanon Lia.

Local Open Scope Z_scope.

(** ** JavaScript values the handlers test for truthiness *)

(** A value that is a string or [undefined]/[null]: it is truthy when it is a
    non-empty string. *)
Definition truthy (v : option string) : bool :=
  match v with
  | Some (String _ _) => true
  | _ => false
  end.

(** ** Completion records *)

Inductive AxiosCause : Type :=
| BadStatus (status : Z)        (* a reply whose status is not 2xx *)
| Transport (code : string)     (* refused, reset, unreachable, socket timeout *)
| TimeoutExceeded.              (* the configured [timeout] ran out *)

Inductive Exn : Type :=
| TypeError                     (* property read on null or undefined *)
| SyntaxError                   (* request body that does not parse *)
| PrismaError                   (* the store rejects the query or the write *)
| AxiosError (cause : AxiosCause)
| FsError.                      (* mkdir or writeFile fails *)

(** How the evaluation of a statement inside a function returning [R] ends:
    with a value, with a [return], with a [throw], or never, when an awaited
    promise does not settle. *)
Inductive Completion (R A : Type) : Type :=
| Normal (a : A)
| Return (r : R)
| Thrown (e : Exn)
| Pending.
Arguments Normal {R A} a.
Arguments Return {R A} r.
Arguments Thrown {R A} e.
Arguments Pending {R A}.

(** ** The store *)

(** Dates are their time value: milliseconds since the epoch. *)
Definition Date := Z.

Record RateLimit : Type := mkRateLimit {
  rl_count : Z;
  rl_windowStart : Date;
}.

Record Source : Type := mkSource {
  src_documentId : string;
  src_documentName : string;
  src_chunk : string;
  src_score : Qc;
}.

Inductive Role : Type := user | assistant.

Record Message : Type := mkMessage {
  msg_id : string;
  msg_conversationId : string;
  msg_role : Role;
  msg_content : string;
  msg_sources : list Source;
  msg_createdAt : Date;
}.

(** A conversation as the client hands it out ... *)
Record Conversation : Type := mkConversation {
  conv_id : string;
  conv_userId : string;
  conv_title : string;
  conv_createdAt : Date;
  conv_updatedAt : Date;
}.

(** ... and as the table holds it, under its id. *)
Record ConversationRow : Type := mkConversationRow {
  row_userId : string;
  row_title : string;
  row_createdAt : Date;
  row_updatedAt : Date;
}.

Definition conversation_of (id : string) (row : ConversationRow) : Conversation :=
  mkConversation id (row_userId row) (row_title row) (row_createdAt row) (row_updatedAt row).

Record Document : Type := mkDocument {
  doc_id : string;
  doc_userId : string;
  doc_filename : string;
  doc_originalName : string;
  doc_fileType : string;
  doc_fileSize : Z;
  doc_status : string;
}.

Record User : Type := mkUser {
  usr_name : option string;
  usr_password : option string;
}.

(** The tables the handlers reach through the Prisma client.  [rateLimits] is
    keyed by the compound unique key (userId, endpoint); messages and
    documents are kept in insertion order. *)
Record Db : Type := mkDb {
  rateLimits : gmap (string * string) RateLimit;
  conversations : gmap string ConversationRow;
  messages : list Message;
  documents : list Document;
  users : gmap string User;
}.

Definition set_rateLimits (f : gmap (string * string) RateLimit -> gmap (string * string) RateLimit)
    (db : Db) : Db :=
  mkDb (f (rateLimits db)) (conversations db) (messages db) (documents db) (users db).

Definition set_conversations
    (f : gmap string ConversationRow -> gmap string ConversationRow) (db : Db) : Db :=
  mkDb (rateLimits db) (f (conversations db)) (messages db) (documents db) (users db).

Definition set_messages (f : list Message -> list Message) (db : Db) : Db :=
  mkDb (rateLimits db) (conversations db) (f (messages db)) (documents db) (users db).

Definition set_documents (f : list Document -> list Document) (db : Db) : Db :=
  mkDb (rateLimits db) (conversations db) (messages db) (f (documents db)) (users db).

Definition set_users (f : gmap string User -> gmap string User) (db : Db) : Db :=
  mkDb (rateLimits db) (conversations db) (messages db) (documents db) (f (users db)).

(** ** Awaited computations over the store *)

Definition Async (R A : Type) : Type := Db -> Completion R A * Db.

Definition ret {R A} (a : A) : Async R A := fun db => (Normal a, db).

Definition return_ {R A} (r : R) : Async R A := fun db => (Return r, db).

Definition throw {R A} (e : Exn) : Async R A := fun db => (Thrown e, db).

(** An awaited promise that never settles. *)
Definition never {R A} : Async R A := fun db => (Pending, db).

Definition bind {R A B} (m : Async R A) (k : A -> Async R B) : Async R B :=
  fun db =>
    match m db with
    | (Normal a, db') => k a db'
    | (Return r, db') => (Return r, db')
    | (Thrown e, db') => (Thrown e, db')
    | (Pending, db') => (Pending, db')
    end.

Notation "'let*' x ':=' m 'in' k" := (bind m (fun x => k))
  (at level 10, x name, m at level 100, k at level 200, only parsing).

(** [try { m } catch (error) { h }]: the writes made before the throw stay. *)
Definition try_catch {R A} (m : Async R A) (h : Exn -> Async R A) : Async R A :=
  fun db =>
    match m db with
    | (Thrown e, db') => h e db'
    | r => r
    end.

(** The call of an [async function] with body [m]: a [return r] inside the
    body is the value of the call. *)
Definition async_function {R R'} (m : Async R R) : Async R' R :=
  fun db =>
    match m db with
    | (Normal r, db') => (Normal r, db')
    | (Return r, db') => (Normal r, db')
    | (Thrown e, db') => (Thrown e, db')
    | (Pending, db') => (Pending, db')
    end.

(** Reading a property of a value that may be null or undefined. *)
Definition property {R A B} (f : A -> B) (v : option A) : Async R B :=
  match v with
  | Some a => ret (f a)
  | None => throw TypeError
  end.

(** ** The session *)

Record SessionUser : Type := mkSessionUser {
  su_id : option string;
}.

Record Session : Type := mkSession {
  s_user : option SessionUser;
}.

(** [session?.user] *)
Definition session_user (session : option Session) : option SessionUser :=
  session ≫= s_user.

(** [session?.user?.id] *)
Definition session_user_id (session : option Session) : option string :=
  session_user session ≫= su_id.

(** ** src/lib/rate-limit.ts *)

Definition RATE_LIMIT_WINDOW : Z := 15 * 60 * 1000.
Definition MAX_REQUESTS : Z := 100.

Module rateLimit.

(** [prisma.rateLimit.findUnique({ where: { userId_endpoint } })] *)
Definition findUnique {R} (key : string * string) : Async R (option RateLimit) :=
  fun db => (Normal (rateLimits db !! key), db).

(** [prisma.rateLimit.create]: the compound key is unique. *)
Definition create {R} (key : string * string) (data : RateLimit) : Async R RateLimit :=
  fun db =>
    match rateLimits db !! key with
    | Some _ => (Thrown PrismaError, db)
    | None => (Normal data, set_rateLimits (insert key data) db)
    end.

(** [prisma.rateLimit.update]: the row has to exist. *)
Definition update {R} (key : string * string) (data : RateLimit -> RateLimit)
    : Async R RateLimit :=
  fun db =>
    match rateLimits db !! key with
    | Some r => (Normal (data r), set_rateLimits (insert key (data r)) db)
    | None => (Thrown PrismaError, db)
    end.

End rateLimit.

(** What a call reads from its surroundings: [getServerSession(authOptions)]
    and [new Date()]. *)
Record Ambient : Type := mkAmbient {
  amb_session : option Session;
  amb_now : Date;
}.

(** One call of [checkRateLimit], run with no other call between its awaits:
    [findUnique] reads the store the writes land on. *)
Definition checkRateLimit {R} (amb : Ambient) (endpoint : string) : Async R bool :=
  async_function (
    let session := amb_session amb in
    match session_user_id session with
    | Some (String _ _ as userId) =>
        let now := amb_now amb in
        let windowStart := now - RATE_LIMIT_WINDOW in
        let* rateLimit := rateLimit.findUnique (userId, endpoint) in
        match rateLimit with
        | None =>
            let* _ := rateLimit.create (userId, endpoint) (mkRateLimit 1 now) in
            return_ true
        | Some r =>
            if rl_windowStart r <? windowStart then
              let* _ := rateLimit.update (userId, endpoint) (fun _ => mkRateLimit 1 now) in
              return_ true
            else if MAX_REQUESTS <=? rl_count r then return_ false
            else
              let* _ := rateLimit.update (userId, endpoint)
                          (fun r0 => mkRateLimit (rl_count r0 + 1) (rl_windowStart r0)) in
              return_ true
        end
    | _ => return_ false   (* !session?.user?.id *)
    end).

(** The same call with other calls running between its awaits.  The function
    awaits [findUnique] and, later, [create] or [update]; each of the three is
    one statement of the store, nothing ties them together.  So the row the
    call decides on is the one of the store [seen] at the time of its read,
    while its write lands on the store of the moment, which other calls may
    have changed since: [create] is rejected when the key has been taken,
    [update] with [increment: 1] adds to the count that is stored then, and
    the reset overwrites whatever is stored. *)
Definition checkRateLimit_interleaved {R} (amb : Ambient) (endpoint : string) (seen : Db)
    : Async R bool :=
  async_function (
    let session := amb_session amb in
    match session_user_id session with
    | Some (String _ _ as userId) =>
        let now := amb_now amb in
        let windowStart := now - RATE_LIMIT_WINDOW in
        let rateLimit := rateLimits seen !! (userId, endpoint) in
        match rateLimit with
        | None =>
            let* _ := rateLimit.create (userId, endpoint) (mkRateLimit 1 now) in
            return_ true
        | Some r =>
            if rl_windowStart r <? windowStart then
              let* _ := rateLimit.update (userId, endpoint) (fun _ => mkRateLimit 1 now) in
              return_ true
            else if MAX_REQUESTS <=? rl_count r then return_ false
            else
              let* _ := rateLimit.update (userId, endpoint)
                          (fun r0 => mkRateLimit (rl_count r0 + 1) (rl_windowStart r0)) in
              return_ true
        end
    | _ => return_ false   (* !session?.user?.id *)
    end).

(** ** HTTP responses of the route handlers *)

Inductive Json : Type :=
| JMessage (message : string)
    (* { message } *)
| JChat (conversationId : string) (message : Message)
    (* { conversationId, message } *)
| JUpload (documentId filename status : string).
    (* { documentId, filename, status } *)

Record Response : Type := mkResponse {
  res_body : Json;
  res_status : Z;
}.

Module NextResponse.

(** [NextResponse.json(body, { status })]; the status is 200 when no init
    is given. *)
Definition json (body : Json) (init : option Z) : Response :=
  mkResponse body (default 200 init).

End NextResponse.

(** ** The backend, reached with axios *)

(** [response.data] as the handlers use it: null (or undefined), where every
    property read throws, or a value with what its [content] and [sources]
    properties read as.  [content] is [None] when the property is missing or
    is no string, [sources] is [None] when it is missing or falsy. *)
Inductive Payload : Type :=
| PNull
| PValue (content : option string) (sources : option (list Source)).

(** What the far end does with one request. *)
Inductive Backend : Type :=
| Replies (status : Z) (data : Payload)
| Fails (code : string)
| Silent.

Record AxiosRequest : Type := mkAxiosRequest {
  req_url : string;
  req_data : list (string * option string);
  req_timeout : Z;
}.

Definition Network : Type := AxiosRequest -> Backend.

Module axios.

(** axios' default for [timeout] is 0: no timeout. *)
Definition defaults_timeout : Z := 0.

(** The request settles with the reply when its status passes the default
    [validateStatus] (2xx), rejects on another status or on a transport
    failure, and rejects on silence only when a positive [timeout] is
    configured. *)
Definition request {R} (net : Network) (req : AxiosRequest) : Async R Payload :=
  match net req with
  | Replies status data =>
      if (200 <=? status) && (status <? 300) then ret data
      else throw (AxiosError (BadStatus status))
  | Fails code => throw (AxiosError (Transport code))
  | Silent =>
      if 0 <? req_timeout req then throw (AxiosError TimeoutExceeded)
      else never
  end.

(** [axios.post(url, data)], without a config: the defaults apply. *)
Definition post {R} (net : Network) (url : string) (data : list (string * option string))
    : Async R Payload :=
  request net (mkAxiosRequest url data defaults_timeout).

End axios.

(** ** The Prisma client *)

(** The identifier the store gives to a created row ([@default(cuid())]) is
    one that no row of the table has. *)
Definition new_id (used : gset string) : string := fresh used.

Module conversation.

(** [prisma.conversation.findUnique({ where: { id } })] *)
Definition findUnique {R} (id : string) : Async R (option Conversation) :=
  fun db => (Normal (conversation_of id <$> conversations db !! id), db).

(** [prisma.conversation.create({ data: { userId, title } })]; [userId] is
    a required column, the store fills in the id and both timestamps. *)
Definition create {R} (now : Date) (userId : option string) (title : string)
    : Async R Conversation :=
  fun db =>
    match userId with
    | None => (Thrown PrismaError, db)
    | Some userId =>
        let id := new_id (dom (conversations db)) in
        let row := mkConversationRow userId title now now in
        (Normal (conversation_of id row), set_conversations (insert id row) db)
    end.

(** [prisma.conversation.update({ where: { id }, data: { updatedAt } })]:
    the row has to exist. *)
Definition update {R} (id : string) (updatedAt : Date) : Async R Conversation :=
  fun db =>
    match conversations db !! id with
    | Some row =>
        let row' := mkConversationRow (row_userId row) (row_title row)
                      (row_createdAt row) updatedAt in
        (Normal (conversation_of id row'), set_conversations (insert id row') db)
    | None => (Thrown PrismaError, db)
    end.

End conversation.

Module message.

(** [prisma.message.create({ data: { conversationId, role, content, sources } })]:
    [content] is a required string column ([content: string] in the
    [Message] interface) and [conversationId] has to refer to a stored
    conversation. *)
Definition create {R} (now : Date) (conversationId : string) (role : Role)
    (content : option string) (sources : list Source) : Async R Message :=
  fun db =>
    match content, conversations db !! conversationId with
    | Some content, Some _ =>
        let id := new_id (list_to_set (map msg_id (messages db))) in
        let m := mkMessage id conversationId role content sources now in
        (Normal m, set_messages (fun ms => ms ++ [m]) db)
    | _, _ => (Thrown PrismaError, db)
    end.

End message.

Module document.

(** [prisma.document.create({ data })]: [userId] is a required column. *)
Definition create {R} (userId : option string) (filename originalName fileType : string)
    (fileSize : Z) (status : string) : Async R Document :=
  fun db =>
    match userId with
    | None => (Thrown PrismaError, db)
    | Some userId =>
        let id := new_id (list_to_set (map doc_id (documents db))) in
        let d := mkDocument id userId filename originalName fileType fileSize status in
        (Normal d, set_documents (fun ds => ds ++ [d]) db)
    end.

End document.

Module user_.

(** [prisma.user.findUnique({ where: { id } })]: the query is rejected when
    [id] is undefined. *)
Definition findUnique {R} (id : option string) : Async R (option User) :=
  fun db =>
    match id with
    | None => (Thrown PrismaError, db)
    | Some id => (Normal (users db !! id), db)
    end.

(** [prisma.user.update({ where: { id }, data: { password } })] *)
Definition update_password {R} (id : option string) (password : string) : Async R User :=
  fun db =>
    match id ≫= (fun id => (fun u => (id, u)) <$> users db !! id) with
    | Some (id, u) =>
        let u' := mkUser (usr_name u) (Some password) in
        (Normal u', set_users (insert id u') db)
    | None => (Thrown PrismaError, db)
    end.

End user_.

(** [process.env.BACKEND_API_URL || "http://localhost:8000"] *)
Definition backend_url (BACKEND_API_URL : option string) : string :=
  match BACKEND_API_URL with
  | Some (String _ _ as url) => url
  | _ => "http://localhost:8000"
  end.

Definition internal_server_error {A} (error : Exn) : Async Response A :=
  return_ (NextResponse.json (JMessage "Internal server error") (Some 500)).

(** ** POST /api/chat *)

Module Chat.

Record ChatRequest : Type := mkChatRequest {
  conversationId : option string;
  message : option string;
}.

(** What one call reads from its surroundings: the session, the request
    body ([None] when [request.json()] rejects), the environment variable,
    the far end of the network, and the clock at the three store writes
    and at [new Date()]. *)
Record Env : Type := mkEnv {
  env_session : option Session;
  env_body : option ChatRequest;
  env_BACKEND_API_URL : option string;
  env_network : Network;
  env_at_conversation : Date;
  env_at_userMessage : Date;
  env_at_assistantMessage : Date;
  env_now : Date;
}.

Definition request_json {R} (env : Env) : Async R ChatRequest :=
  match env_body env with
  | Some body => ret body
  | None => throw SyntaxError
  end.

Definition apology : string :=
  "I apologize, but I'm having trouble processing your request right now. Please try again later.".

(** [assistantResponse.content] *)
Definition content_of {R} (assistantResponse : Payload) : Async R (option string) :=
  match assistantResponse with
  | PNull => throw TypeError
  | PValue content _ => ret content
  end.

(** [assistantResponse.sources || []] *)
Definition sources_of {R} (assistantResponse : Payload) : Async R (list Source) :=
  match assistantResponse with
  | PNull => throw TypeError
  | PValue _ sources => ret (default [] sources)
  end.

Definition POST {R} (env : Env) : Async R Response :=
  async_function (try_catch (
    let session := env_session env in
    match session_user session with
    | None => return_ (NextResponse.json (JMessage "Unauthorized") (Some 401))
    | Some session_user =>
        let* body := request_json env in
        match message body with
        | Some (String _ _ as message) =>
            let* conversation :=
              match conversationId body with
              | Some (String _ _ as conversationId) =>
                  let* conversation := conversation.findUnique conversationId in
                  if bool_decide (conv_userId <$> conversation ≠ su_id session_user) then
                    return_ (NextResponse.json (JMessage "Forbidden") (Some 403))
                  else ret conversation
              | _ =>
                  let* conversation :=
                    conversation.create (env_at_conversation env) (su_id session_user)
                      (String.substring 0 50 message) in
                  ret (Some conversation)
              end in
            let* conversation_id := property conv_id conversation in
            let* _ := message.create (env_at_userMessage env) conversation_id user
                        (Some message) [] in
            let backendUrl := backend_url (env_BACKEND_API_URL env) in
            let* assistantResponse :=
              try_catch
                (axios.post (env_network env) (backendUrl +:+ "/api/chat")
                   [("userId", su_id session_user); ("message", Some message)])
                (fun error => ret (PValue (Some apology) (Some []))) in
            let* content := content_of assistantResponse in
            let* sources := sources_of assistantResponse in
            let* assistantMessage :=
              message.create (env_at_assistantMessage env) conversation_id assistant
                content sources in
            let* _ := conversation.update conversation_id (env_now env) in
            return_ (NextResponse.json (JChat conversation_id assistantMessage) None)
        | _ => return_ (NextResponse.json (JMessage "Message is required") (Some 400))
        end
    end)
    internal_server_error).

End Chat.

(** ** POST /api/upload *)

Module Upload.

Record File : Type := mkFile {
  file_name : string;
  file_type : string;
  file_size : Z;
}.

(** The surroundings of one call: the session, the form data ([None] when
    [request.formData()] rejects, [Some None] when it has no [file] entry),
    whether [mkdir] and [writeFile] go through, [process.cwd()],
    [Date.now()], the environment variable and the network. *)
Record Env : Type := mkEnv {
  env_session : option Session;
  env_formData : option (option File);
  env_mkdir_ok : bool;
  env_writeFile_ok : bool;
  env_cwd : string;
  env_Date_now : Z;
  env_BACKEND_API_URL : option string;
  env_network : Network;
}.

Definition request_formData {R} (env : Env) : Async R (option File) :=
  match env_formData env with
  | Some formData => ret formData
  | None => throw TypeError
  end.

Definition fs {R} (ok : bool) : Async R unit :=
  if ok then ret tt else throw FsError.

(** [path.join(a, b)], for segments without [.], [..] or doubled separators,
    which Node would normalise away.  The joined path is only handed on to
    the backend; what [writeFile] does to the disk is not part of the model
    (see [fs]). *)
Definition path_join (a b : string) : string := a +:+ "/" +:+ b.

Definition POST {R} (env : Env) : Async R Response :=
  async_function (try_catch (
    let session := env_session env in
    match session_user session with
    | None => return_ (NextResponse.json (JMessage "Unauthorized") (Some 401))
    | Some session_user =>
        let* file := request_formData env in
        match file with
        | None => return_ (NextResponse.json (JMessage "No file provided") (Some 400))
        | Some file =>
            let uploadsDir := path_join (env_cwd env) "uploads" in
            let* _ := fs (env_mkdir_ok env) in
            let filename := pretty (env_Date_now env) +:+ "-" +:+ file_name file in
            let filepath := path_join uploadsDir filename in
            let* _ := fs (env_writeFile_ok env) in
            let* document :=
              document.create (su_id session_user) filename (file_name file)
                (file_type file) (file_size file) "processing" in
            let backendUrl := backend_url (env_BACKEND_API_URL env) in
            let* _ :=
              try_catch
                (let* _ := axios.post (env_network env) (backendUrl +:+ "/api/process-document")
                             [("documentId", Some (doc_id document));
                              ("filename", Some filename);
                              ("filepath", Some filepath);
                              ("userId", su_id session_user)] in
                 ret tt)
                (fun error => ret tt) in
            return_ (NextResponse.json
                       (JUpload (doc_id document) (doc_filename document) (doc_status document))
                       None)
        end
    end)
    internal_server_error).

End Upload.

(** ** PUT on the password route *)

Module Password.

Record PasswordRequest : Type := mkPasswordRequest {
  currentPassword : option string;
  newPassword : option string;
}.

(** The surroundings of one call: the session, the request body, and
    bcryptjs' [compare] and [hash]. *)
Record Env : Type := mkEnv {
  env_session : option Session;
  env_body : option PasswordRequest;
  env_compare : string -> string -> bool;
  env_hash : string -> Z -> string;
}.

Definition request_json {R} (env : Env) : Async R PasswordRequest :=
  match env_body env with
  | Some body => ret body
  | None => throw SyntaxError
  end.

Definition PUT {R} (env : Env) : Async R Response :=
  async_function (try_catch (
    let session := env_session env in
    match session_user session with
    | None => return_ (NextResponse.json (JMessage "Unauthorized") (Some 401))
    | Some session_user =>
        let* body := request_json env in
        match currentPassword body, newPassword body with
        | Some (String _ _ as currentPassword), Some (String _ _ as newPassword) =>
            let* user := user_.findUnique (su_id session_user) in
            match user ≫= usr_password with
            | Some (String _ _ as password) =>
                let isPasswordValid := env_compare env currentPassword password in
                if negb isPasswordValid then
                  return_ (NextResponse.json (JMessage "Current password is incorrect")
                             (Some 400))
                else
                  let hashedPassword := env_hash env newPassword 12 in
                  let* _ := user_.update_password (su_id session_user) hashedPassword in
                  return_ (NextResponse.json (JMessage "Password updated successfully") None)
            | _ => return_ (NextResponse.json (JMessage "User not found") (Some 404))
            end
        | _, _ => return_ (NextResponse.json (JMessage "All fields are required") (Some 400))
        end
    end)
    internal_server_error).

End Password.

(** * The other route handlers *)

(** The referential action of the relation from [Message] to
    [Conversation].  It is set in the Prisma schema, which is not among
    these sources: the handlers are modelled for either action. *)
Inductive ReferentialAction : Type := Cascade | Restrict.

(** [where: { userId }]: an undefined value puts no condition on the rows. *)
Definition where_userId (userId : option string) (c : Conversation) : Prop :=
  match userId with
  | Some u => conv_userId c = u
  | None => True
  end.

#[global] Instance where_userId_dec userId c : Decision (where_userId userId c).
Proof. destruct userId; simpl; apply _. Defined.

(** [orderBy: { updatedAt: "desc" }] *)
Definition updatedAt_desc (c1 c2 : Conversation) : Prop :=
  conv_updatedAt c2 <= conv_updatedAt c1.

#[global] Instance updatedAt_desc_dec c1 c2 : Decision (updatedAt_desc c1 c2).
Proof. unfold updatedAt_desc. apply _. Defined.

(** Further operations of the Prisma client. *)
Module prisma.

(** [prisma.conversation.delete({ where: { id } })]: the row has to exist;
    its messages go with it under [Cascade] and block the deletion under
    [Restrict]. *)
Definition conversation_delete {R} (onDelete : ReferentialAction) (id : string)
    : Async R Conversation :=
  fun db =>
    match conversations db !! id with
    | None => (Thrown PrismaError, db)
    | Some row =>
        match onDelete with
        | Cascade =>
            (Normal (conversation_of id row),
             set_messages (filter (fun m => msg_conversationId m <> id))
               (set_conversations (delete id) db))
        | Restrict =>
            if bool_decide (id ∈ map msg_conversationId (messages db)) then
              (Thrown PrismaError, db)
            else (Normal (conversation_of id row), set_conversations (delete id) db)
        end
    end.

(** [prisma.conversation.findMany({ where: { userId }, orderBy: { updatedAt:
    "desc" }, take })].  The order among rows with the same [updatedAt] is
    the store's choice; here it is the one of a merge sort of the table. *)
Definition conversation_findMany {R} (userId : option string) (take_ : nat)
    : Async R (list Conversation) :=
  fun db =>
    let rows := (fun kv => conversation_of (fst kv) (snd kv)) <$> map_to_list (conversations db) in
    (Normal (take take_ (merge_sort updatedAt_desc (filter (where_userId userId) rows))), db).

(** [prisma.document.findUnique({ where: { id } })] *)
Definition document_findUnique {R} (id : string) : Async R (option Document) :=
  fun db => (Normal (find (fun d => bool_decide (doc_id d = id)) (documents db)), db).

(** [prisma.document.delete({ where: { id } })]: the row has to exist. *)
Definition document_delete {R} (id : string) : Async R Document :=
  fun db =>
    match find (fun d => bool_decide (doc_id d = id)) (documents db) with
    | Some d => (Normal d, set_documents (filter (fun d => doc_id d <> id)) db)
    | None => (Thrown PrismaError, db)
    end.

(** [prisma.user.update({ where: { id }, data: { name } })]: the row has to
    exist and [id] has to be defined. *)
Definition user_update_name {R} (id : option string) (name : string) : Async R User :=
  fun db =>
    match id ≫= (fun id => (fun u => (id, u)) <$> users db !! id) with
    | Some (id, u) =>
        let u' := mkUser (Some name) (usr_password u) in
        (Normal u', set_users (insert id u') db)
    | None => (Thrown PrismaError, db)
    end.

End prisma.

(** ** DELETE /api/conversations/[id] *)

Module ConversationById.

(** The session and [params.id]. *)
Record Env : Type := mkEnv {
  env_session : option Session;
  env_id : string;
}.

Definition DELETE {R} (onDelete : ReferentialAction) (env : Env) : Async R Response :=
  async_function (try_catch (
    let session := env_session env in
    match session_user session with
    | None => return_ (NextResponse.json (JMessage "Unauthorized") (Some 401))
    | Some session_user =>
        let* conversation := conversation.findUnique (env_id env) in
        match conversation with
        | None => return_ (NextResponse.json (JMessage "Conversation not found") (Some 404))
        | Some conversation =>
            if bool_decide (Some (conv_userId conversation) <> su_id session_user) then
              return_ (NextResponse.json (JMessage "Forbidden") (Some 403))
            else
              let* _ := prisma.conversation_delete onDelete (env_id env) in
              return_ (NextResponse.json (JMessage "Conversation deleted successfully") None)
        end
    end)
    internal_server_error).

End ConversationById.

(** ** GET /api/conversations *)

Module Conversations.

Inductive ListJson : Type :=
| LMessage (message : string)
| LConversations (conversations : list Conversation).

Record ListResponse : Type := mkListResponse {
  lres_body : ListJson;
  lres_status : Z;
}.

Definition json (body : ListJson) (init : option Z) : ListResponse :=
  mkListResponse body (default 200 init).

Definition GET {R} (session : option Session) : Async R ListResponse :=
  async_function (try_catch (
    match session_user session with
    | None => return_ (json (LMessage "Unauthorized") (Some 401))
    | Some session_user =>
        let* conversations := prisma.conversation_findMany (su_id session_user) 20 in
        return_ (json (LConversations conversations) None)
    end)
    (fun error => return_ (json (LMessage "Internal server error") (Some 500)))).

End Conversations.

(** ** DELETE /api/documents/[id] *)

Module DocumentById.

(** The session, [params.id], and whether [unlink] goes through. *)
Record Env : Type := mkEnv {
  env_session : option Session;
  env_id : string;
  env_unlink_ok : bool;
}.

Definition unlink {R} (ok : bool) : Async R unit :=
  if ok then ret tt else throw FsError.

Definition DELETE {R} (env : Env) : Async R Response :=
  async_function (try_catch (
    let session := env_session env in
    match session_user session with
    | None => return_ (NextResponse.json (JMessage "Unauthorized") (Some 401))
    | Some session_user =>
        let* document := prisma.document_findUnique (env_id env) in
        match document with
        | None => return_ (NextResponse.json (JMessage "Document not found") (Some 404))
        | Some document =>
            if bool_decide (Some (doc_userId document) <> su_id session_user) then
              return_ (NextResponse.json (JMessage "Forbidden") (Some 403))
            else
              let* _ := try_catch (unlink (env_unlink_ok env)) (fun error => ret tt) in
              let* _ := prisma.document_delete (env_id env) in
              return_ (NextResponse.json (JMessage "Document deleted successfully") None)
        end
    end)
    internal_server_error).

End DocumentById.

(** ** PUT /api/user/profile *)

Module Profile.

Record ProfileRequest : Type := mkProfileRequest {
  name : option string;
}.

Record Env : Type := mkEnv {
  env_session : option Session;
  env_body : option ProfileRequest;
}.

Definition request_json {R} (env : Env) : Async R ProfileRequest :=
  match env_body env with
  | Some body => ret body
  | None => throw SyntaxError
  end.

Definition PUT {R} (env : Env) : Async R Response :=
  async_function (try_catch (
    let session := env_session env in
    match session_user session with
    | None => return_ (NextResponse.json (JMessage "Unauthorized") (Some 401))
    | Some session_user =>
        let* body := request_json env in
        match name body with
        | Some (String _ _ as name) =>
            let* _ := prisma.user_update_name (su_id session_user) name in
            return_ (NextResponse.json (JMessage "Profile updated successfully") None)
        | _ => return_ (NextResponse.json (JMessage "Name is required") (Some 400))
        end
    end)
    internal_server_error).

End Profile.

(** * Vocabulary of the specification *)

(** The session resolves to the subject [userId]. *)
Definition authenticated_as (session : option Session) (userId : string) : Prop :=
  session_user_id session = Some userId /\ userId <> EmptyString.

(** The window of a stored counter is still active at [now]: it has not
    expired, where expiry is [now - windowStart >= WINDOW_DURATION]. *)
Definition window_active (now : Date) (r : RateLimit) : Prop :=
  now - rl_windowStart r < RATE_LIMIT_WINDOW.

Definition window_expired (now : Date) (r : RateLimit) : Prop :=
  now - rl_windowStart r >= RATE_LIMIT_WINDOW.

(** The axios call rejects: a transport failure, or a reply whose status is
    not 2xx. *)
Definition axios_rejects (answer : Backend) : Prop :=
  match answer with
  | Fails _ => True
  | Replies status _ => (200 <=? status) && (status <? 300) = false
  | Silent => False
  end.

(** A call of the limiter. *)
Record Call : Type := mkCall {
  call_amb : Ambient;
  call_endpoint : string;
}.

(** The counter a call works on, when its subject resolves. *)
Definition call_key (c : Call) : option (string * string) :=
  match session_user_id (amb_session (call_amb c)) with
  | Some (String _ _ as userId) => Some (userId, call_endpoint c)
  | _ => None
  end.

Definition is_admitted {R} (c : Completion R bool) : bool :=
  match c with
  | Normal true => true
  | _ => false
  end.

(** A run of calls that do not overlap: each call reads and writes before
    the next one reads.  The number of calls of the run, started on [db],
    that work on the counter [key] and are admitted. *)
Fixpoint admissions (key : string * string) (calls : list Call) (db : Db) : nat :=
  match calls with
  | [] => 0
  | c :: calls' =>
      let '(r, db') := checkRateLimit (R := Empty_set) (call_amb c) (call_endpoint c) db in
      ((if bool_decide (call_key c = Some key) && is_admitted r then 1 else 0)
       + admissions key calls' db')%nat
  end.

(** A run of calls that may overlap.  The calls are listed in the order of
    their writes; the [lag] of a call says how many of the writes before its
    own it has not seen, its read having come before them.  With lag 0 a call
    reads the store it writes on. *)
Record Overlapping : Type := mkOverlapping {
  ov_call : Call;
  ov_lag : nat;
}.

(** The store a call with the given lag has read: [history] lists the
    stores before [db], the latest first. *)
Definition store_seen (lag : nat) (history : list Db) (db : Db) : Db :=
  match (db :: history) !! lag with
  | Some seen => seen
  | None => default db (last history)
  end.

(** The number of calls of the overlapping run, started on [db] after the
    stores of [history], that work on the counter [key] and are admitted. *)
Fixpoint admissions_overlapping (key : string * string) (calls : list Overlapping)
    (history : list Db) (db : Db) : nat :=
  match calls with
  | [] => 0
  | c :: calls' =>
      let seen := store_seen (ov_lag c) history db in
      let '(r, db') :=
        checkRateLimit_interleaved (R := Empty_set)
          (call_amb (ov_call c)) (call_endpoint (ov_call c)) seen db in
      ((if bool_decide (call_key (ov_call c) = Some key) && is_admitted r then 1 else 0)
       + admissions_overlapping key calls' (db :: history) db')%nat
  end.

(** The store after an overlapping run. *)
Fixpoint after_overlapping (calls : list Overlapping) (history : list Db) (db : Db) : Db :=
  match calls with
  | [] => db
  | c :: calls' =>
      let seen := store_seen (ov_lag c) history db in
      after_overlapping calls' (db :: history)
        (snd (checkRateLimit_interleaved (R := Empty_set)
                (call_amb (ov_call c)) (call_endpoint (ov_call c)) seen db))
  end.

(** No call of the run overlaps another. *)
Definition one_after_the_other (calls : list Overlapping) : Prop :=
  Forall (fun c => ov_lag c = 0%nat) calls.

(** The call [c], made on [db], is the first admission of a window of the
    counter [key]: it leaves the counter at count 1, with the window starting
    at the time of the call. *)
Definition opens_window (key : string * string) (c : Call) (db : Db) : Prop :=
  call_key c = Some key /\
  rateLimits (snd (checkRateLimit (R := Empty_set) (call_amb c) (call_endpoint c) db)) !! key
  = Some (mkRateLimit 1 (amb_now (call_amb c))).

(** The call [c] is made inside the window that started at [t0]. *)
Definition in_window (key : string * string) (t0 : Date) (c : Call) : Prop :=
  call_key c = Some key -> window_active (amb_now (call_amb c)) (mkRateLimit 1 t0).

Definition session_of (userId : string) : option Session :=
  Some (mkSession (Some (mkSessionUser (Some userId)))).

Definition at_time (userId : string) (now : Date) : Ambient :=
  mkAmbient (session_of userId) now.

Definition counters (l : list (string * string * RateLimit)) : Db :=
  mkDb (list_to_map l) ∅ [] [] ∅.

(** 101 calls of alice on the chat endpoint within twelve milliseconds: 99
    calls one after the other, then two calls that overlap, the last one
    reading before the write of the one before it. *)
Definition burst : list Overlapping :=
  mkOverlapping (mkCall (at_time "alice" 0) "chat") 0
  :: replicate 98 (mkOverlapping (mkCall (at_time "alice" 5) "chat") 0)
  ++ [mkOverlapping (mkCall (at_time "alice" 10) "chat") 0;
      mkOverlapping (mkCall (at_time "alice" 11) "chat") 1].

(** ** POST /api/chat: what a call goes through *)

Module ChatSpec.
Import Chat.

(** The call is made by the session user [su], with the (optional)
    conversation id [cid] and the non-empty message [msg]. *)
Definition chat_call (env : Env) (su : SessionUser) (cid : option string) (msg : string)
    : Prop :=
  session_user (env_session env) = Some su /\
  env_body env = Some (mkChatRequest cid (Some msg)) /\
  msg <> EmptyString.

(** Conversation resolution goes through: the given conversation is stored
    and belongs to the caller, or none is given and one is created for the
    caller.  [k] is the id of the resolved conversation, [row] its row, and
    [db1] the store after the resolution. *)
Inductive resolved (env : Env) (su : SessionUser) (msg : string) (db : Db)
    : option string -> string -> ConversationRow -> Db -> Prop :=
| resolved_existing k row :
    k <> EmptyString ->
    conversations db !! k = Some row ->
    su_id su = Some (row_userId row) ->
    resolved env su msg db (Some k) k row db
| resolved_created cid userId k row :
    truthy cid = false ->
    su_id su = Some userId ->
    k = new_id (dom (conversations db)) ->
    row = mkConversationRow userId (String.substring 0 50 msg)
            (env_at_conversation env) (env_at_conversation env) ->
    resolved env su msg db cid k row (set_conversations (insert k row) db).

(** The request the handler hands to axios. *)
Definition backend_request (env : Env) (su : SessionUser) (msg : string) : AxiosRequest :=
  mkAxiosRequest (backend_url (env_BACKEND_API_URL env) +:+ "/api/chat")
    [("userId", su_id su); ("message", Some msg)] axios.defaults_timeout.

(** The user message written to the conversation [k] on the store [db1]. *)
Definition user_message (env : Env) (k msg : string) (db1 : Db) : Message :=
  mkMessage (new_id (list_to_set (map msg_id (messages db1)))) k user msg []
    (env_at_userMessage env).

Definition with_user_message (env : Env) (k msg : string) (db1 : Db) : Db :=
  set_messages (fun ms => ms ++ [user_message env k msg db1]) db1.

(** The assistant message written after it. *)
Definition assistant_message (env : Env) (k msg content : string) (sources : list Source)
    (db1 : Db) : Message :=
  mkMessage (new_id (list_to_set (map msg_id (messages (with_user_message env k msg db1)))))
    k assistant content sources (env_at_assistantMessage env).

Definition touched (row : ConversationRow) (now : Date) : ConversationRow :=
  mkConversationRow (row_userId row) (row_title row) (row_createdAt row) now.

(** The store at the end of a completed turn. *)
Definition with_turn (env : Env) (k : string) (row : ConversationRow) (msg content : string)
    (sources : list Source) (db1 : Db) : Db :=
  set_conversations (insert k (touched row (env_now env)))
    (set_messages (fun ms => ms ++ [assistant_message env k msg content sources db1])
       (with_user_message env k msg db1)).

Definition internal_error : Response :=
  NextResponse.json (JMessage "Internal server error") (Some 500).

(** Where a call that got past conversation resolution ends, by what the
    backend does. *)
Definition turn_outcome {R} (env : Env) (k : string) (row : ConversationRow) (msg : string)
    (db1 : Db) (answer : Backend) : Completion R Response * Db :=
  let fallback :=
    (Normal (NextResponse.json (JChat k (assistant_message env k msg apology [] db1)) None),
     with_turn env k row msg apology [] db1) in
  match answer with
  | Silent => (Pending, with_user_message env k msg db1)
  | Fails _ => fallback
  | Replies status data =>
      if (200 <=? status) && (status <? 300) then
        match data with
        | PValue (Some content) sources =>
            (Normal (NextResponse.json
                       (JChat k (assistant_message env k msg content (default [] sources) db1))
                       None),
             with_turn env k row msg content (default [] sources) db1)
        | _ => (Normal internal_error, with_user_message env k msg db1)
        end
      else fallback
  end.

(** The statuses of the responses that end a call before the
    conversation is resolved. *)
Definition early_status (status : Z) : Prop :=
  status = 400 \/ status = 401 \/ status = 403 \/ status = 500.

(** A computation that neither reads nor writes the rate-limit counters:
    changing them beforehand changes nothing but the counters it hands
    back. *)
Definition ignores_rateLimits {R A} (m : Async R A) : Prop :=
  forall f db,
    m (set_rateLimits f db) = (let '(c, db') := m db in (c, set_rateLimits f db')).

(** The same call, with another far end of the network. *)
Definition with_network (net : Network) (env : Env) : Env :=
  mkEnv (env_session env) (env_body env) (env_BACKEND_API_URL env) net
    (env_at_conversation env) (env_at_userMessage env) (env_at_assistantMessage env)
    (env_now env).

Definition status_of {R} (c : Completion R Response) : option Z :=
  match c with
  | Normal res => Some (res_status res)
  | _ => None
  end.

Definition hello (cid : option string) (net : Network) (now : Date) : Env :=
  mkEnv (session_of "alice") (Some (mkChatRequest cid (Some "hello"))) None net
    1000 1001 1002 now.

Definition alice : SessionUser := mkSessionUser (Some "alice").

Definition refusing : Network := fun _ => Fails "ECONNREFUSED".

(** A store with one conversation of alice, last updated at 5000. *)
Definition one_conversation : Db :=
  mkDb ∅ {[ "c1" := mkConversationRow "alice" "first words" 4000 5000 ]} [] [] ∅.

End ChatSpec.

(** ** POST /api/upload: the row and the trigger *)

Module UploadSpec.
Import Upload.

Definition stored_filename (env : Env) (file : File) : string :=
  pretty (env_Date_now env) +:+ "-" +:+ file_name file.

(** The row written for the upload of [file] by [userId]. *)
Definition created_document (env : Env) (userId : string) (file : File) (db : Db)
    : Document :=
  mkDocument (new_id (list_to_set (map doc_id (documents db)))) userId
    (stored_filename env file) (file_name file) (file_type file) (file_size file)
    "processing".

(** The request that triggers the processing. *)
Definition trigger_request (env : Env) (userId : string) (file : File) (db : Db)
    : AxiosRequest :=
  mkAxiosRequest (backend_url (env_BACKEND_API_URL env) +:+ "/api/process-document")
    [("documentId", Some (doc_id (created_document env userId file db)));
     ("filename", Some (stored_filename env file));
     ("filepath", Some (path_join (path_join (env_cwd env) "uploads")
                          (stored_filename env file)));
     ("userId", Some userId)]
    axios.defaults_timeout.

Definition report : File := mkFile "report.pdf" "application/pdf" 2048.

Definition upload_by_alice (net : Network) : Env :=
  mkEnv (session_of "alice") (Some (Some report)) true true "/srv/app" 1700000000000
    None net.

End UploadSpec.

(** ** PUT on the password route: sample data *)

Module PasswordSpec.
Import Password.

(** A stand-in for bcryptjs: the hash of a password is the password
    followed by a mark. *)
Definition toy_hash (password : string) (rounds : Z) : string := password +:+ "#".
Definition toy_compare (password hashed : string) : bool :=
  bool_decide (toy_hash password 12 = hashed).

Definition alice_store : Db :=
  mkDb ∅ ∅ [] [] {[ "alice" := mkUser (Some "Alice") (Some "secret#") ]}.

End PasswordSpec.

(** * Vocabulary of the further properties *)

(** Every stored counter counts between 1 and MAX_REQUESTS. *)
Definition counters_in_range (db : Db) : Prop :=
  forall key r, rateLimits db !! key = Some r -> 1 <= rl_count r <= MAX_REQUESTS.

(** Every stored counter counts at least 1. *)
Definition counters_positive (db : Db) : Prop :=
  forall key r, rateLimits db !! key = Some r -> 1 <= rl_count r.

(** The store after a run of calls of the limiter that do not overlap: each
    call reads and writes before the next one reads. *)
Fixpoint after_calls (calls : list Call) (db : Db) : Db :=
  match calls with
  | [] => db
  | c :: calls' =>
      after_calls calls'
        (snd (checkRateLimit (R := Empty_set) (call_amb c) (call_endpoint c) db))
  end.

(** Every stored message belongs to a stored conversation. *)
Definition messages_have_conversations (db : Db) : Prop :=
  forall m, m ∈ messages db -> is_Some (conversations db !! msg_conversationId m).

(** The status of the response of a completed call. *)
Definition response_status {R} (c : Completion R Response) : option Z :=
  match c with
  | Normal res => Some (res_status res)
  | _ => None
  end.

(** A store with two conversations of alice and one of bob. *)
Definition two_users : Db :=
  mkDb ∅ (<[ "c1" := mkConversationRow "alice" "first" 4000 5000 ]>
          (<[ "c2" := mkConversationRow "alice" "second" 4500 7000 ]>
           {[ "c3" := mkConversationRow "bob" "other" 100 9000 ]})) [] [] ∅.

(** A store with two conversations of alice, each with one message. *)
Definition two_threads : Db :=
  mkDb ∅ (<[ "c1" := mkConversationRow "alice" "first" 4000 5000 ]>
          {[ "c2" := mkConversationRow "alice" "second" 4500 7000 ]})
    [mkMessage "m1" "c1" user "Hello" [] 5000;
     mkMessage "m2" "c2" user "Again" [] 7000] [] ∅.


(** * Properties *)

(** ** The rate limiter, case by case *)

Ltac async_unfold :=
  unfold async_function, try_catch, bind, ret, return_, throw, property,
    rateLimit.findUnique, rateLimit.create, rateLimit.update.

Lemma authenticated_as_nonempty session userId :
  authenticated_as session userId ->
  exists a s, userId = String a s /\ session_user_id session = Some (String a s).
Proof.
  intros [Hid Hne]. destruct userId as [|a s]; [congruence|]. eauto.
Qed.

Lemma checkRateLimit_unresolved R amb endpoint db :
  truthy (session_user_id (amb_session amb)) = false ->
  checkRateLimit (R := R) amb endpoint db = (Normal false, db).
Proof.
  unfold checkRateLimit. intros H.
  destruct (session_user_id (amb_session amb)) as [[|a s]|]; simpl in H;
    try discriminate; reflexivity.
Qed.

Lemma checkRateLimit_absent R amb endpoint db userId :
  authenticated_as (amb_session amb) userId ->
  rateLimits db !! (userId, endpoint) = None ->
  checkRateLimit (R := R) amb endpoint db
  = (Normal true,
     set_rateLimits (insert (userId, endpoint) (mkRateLimit 1 (amb_now amb))) db).
Proof.
  intros Hauth Hnone.
  destruct (authenticated_as_nonempty _ _ Hauth) as (a & s & -> & Hid).
  unfold checkRateLimit. rewrite Hid. async_unfold. cbn beta.
  rewrite Hnone. cbn. rewrite Hnone. reflexivity.
Qed.

Lemma checkRateLimit_present R amb endpoint db userId r :
  authenticated_as (amb_session amb) userId ->
  rateLimits db !! (userId, endpoint) = Some r ->
  checkRateLimit (R := R) amb endpoint db
  = if rl_windowStart r <? amb_now amb - RATE_LIMIT_WINDOW then
      (Normal true,
       set_rateLimits (insert (userId, endpoint) (mkRateLimit 1 (amb_now amb))) db)
    else if MAX_REQUESTS <=? rl_count r then (Normal false, db)
    else
      (Normal true,
       set_rateLimits
         (insert (userId, endpoint) (mkRateLimit (rl_count r + 1) (rl_windowStart r))) db).
Proof.
  intros Hauth Hsome.
  destruct (authenticated_as_nonempty _ _ Hauth) as (a & s & -> & Hid).
  unfold checkRateLimit. rewrite Hid. async_unfold. cbn beta.
  rewrite Hsome. cbn beta iota.
  destruct (rl_windowStart r <? amb_now amb - RATE_LIMIT_WINDOW).
  - rewrite Hsome. reflexivity.
  - destruct (MAX_REQUESTS <=? rl_count r); [reflexivity|].
    rewrite Hsome. reflexivity.
Qed.

Lemma call_key_Some c userId endpoint :
  call_key c = Some (userId, endpoint) ->
  authenticated_as (amb_session (call_amb c)) userId /\ endpoint = call_endpoint c.
Proof.
  unfold call_key, authenticated_as.
  destruct (session_user_id (amb_session (call_amb c))) as [[|a s]|]; try discriminate.
  intros [= <- <-]. repeat split; congruence.
Qed.

Lemma call_key_None c :
  call_key c = None -> truthy (session_user_id (amb_session (call_amb c))) = false.
Proof.
  unfold call_key.
  destruct (session_user_id (amb_session (call_amb c))) as [[|a s]|]; simpl; congruence.
Qed.

(** A call that no other call overlaps reads the store it writes on. *)
Lemma checkRateLimit_not_interleaved R amb endpoint db :
  checkRateLimit (R := R) amb endpoint db = checkRateLimit_interleaved amb endpoint db db.
Proof.
  unfold checkRateLimit, checkRateLimit_interleaved.
  destruct (session_user_id (amb_session amb)) as [[|a s]|]; reflexivity.
Qed.

Lemma checkRateLimit_interleaved_unresolved R amb endpoint seen db :
  call_key (mkCall amb endpoint) = None ->
  checkRateLimit_interleaved (R := R) amb endpoint seen db = (Normal false, db).
Proof.
  unfold call_key, checkRateLimit_interleaved. simpl.
  destruct (session_user_id (amb_session amb)) as [[|a s]|]; try discriminate; reflexivity.
Qed.

(** The write of an interleaved call, on the store of the moment. *)
Lemma checkRateLimit_interleaved_resolved R amb endpoint seen db key :
  call_key (mkCall amb endpoint) = Some key ->
  checkRateLimit_interleaved (R := R) amb endpoint seen db
  = match rateLimits seen !! key with
    | None =>
        match rateLimits db !! key with
        | Some _ => (Thrown PrismaError, db)
        | None => (Normal true, set_rateLimits (insert key (mkRateLimit 1 (amb_now amb))) db)
        end
    | Some r =>
        if rl_windowStart r <? amb_now amb - RATE_LIMIT_WINDOW then
          match rateLimits db !! key with
          | Some _ =>
              (Normal true, set_rateLimits (insert key (mkRateLimit 1 (amb_now amb))) db)
          | None => (Thrown PrismaError, db)
          end
        else if MAX_REQUESTS <=? rl_count r then (Normal false, db)
        else
          match rateLimits db !! key with
          | Some r0 =>
              (Normal true,
               set_rateLimits
                 (insert key (mkRateLimit (rl_count r0 + 1) (rl_windowStart r0))) db)
          | None => (Thrown PrismaError, db)
          end
    end.
Proof.
  unfold call_key, checkRateLimit_interleaved. simpl.
  destruct (session_user_id (amb_session amb)) as [[|a s]|]; try discriminate.
  intros [= <-]. async_unfold. cbn beta.
  destruct (rateLimits seen !! (String a s, endpoint)) as [r|].
  - destruct (rl_windowStart r <? amb_now amb - RATE_LIMIT_WINDOW).
    + destruct (rateLimits db !! (String a s, endpoint)); reflexivity.
    + destruct (MAX_REQUESTS <=? rl_count r); [reflexivity|].
      destruct (rateLimits db !! (String a s, endpoint)); reflexivity.
  - destruct (rateLimits db !! (String a s, endpoint)); reflexivity.
Qed.

Lemma call_key_authenticated amb endpoint userId :
  authenticated_as (amb_session amb) userId ->
  call_key (mkCall amb endpoint) = Some (userId, endpoint).
Proof.
  intros Hauth. destruct (authenticated_as_nonempty _ _ Hauth) as (a & s & -> & Hid).
  unfold call_key. simpl. by rewrite Hid.
Qed.

(** A call leaves the counters of the other keys alone. *)
Lemma checkRateLimit_frame R amb endpoint db userId key :
  authenticated_as (amb_session amb) userId ->
  key <> (userId, endpoint) ->
  rateLimits (snd (checkRateLimit (R := R) amb endpoint db)) !! key = rateLimits db !! key.
Proof.
  intros Hauth Hne.
  destruct (rateLimits db !! (userId, endpoint)) as [r|] eqn:Hl.
  - rewrite (checkRateLimit_present R amb endpoint db userId r Hauth Hl).
    repeat case_match; simpl; try reflexivity; by rewrite lookup_insert_ne.
  - rewrite (checkRateLimit_absent R amb endpoint db userId Hauth Hl).
    simpl. by rewrite lookup_insert_ne.
Qed.

(** Inside a window whose counter stands at [n], at most
    [MAX_REQUESTS - n] further calls are admitted. *)
Lemma admissions_in_window key t0 calls :
  forall db n,
    rateLimits db !! key = Some (mkRateLimit n t0) ->
    Forall (fun c => call_key c = Some key ->
                     window_active (amb_now (call_amb c)) (mkRateLimit n t0)) calls ->
    Z.of_nat (admissions key calls db) <= Z.max 0 (MAX_REQUESTS - n).
Proof.
  induction calls as [|c calls IH]; intros db n Hl Hall; simpl; [lia|].
  inversion Hall as [|? ? Hc Hrest]; subst.
  destruct (call_key c) as [[u e]|] eqn:Hk.
  - destruct (call_key_Some _ _ _ Hk) as [Hauth ->].
    destruct (decide ((u, call_endpoint c) = key)) as [<-|Hne].
    + specialize (Hc eq_refl). unfold window_active in Hc. simpl in Hc.
      rewrite (checkRateLimit_present _ _ _ _ _ _ Hauth Hl). simpl.
      destruct (Z.ltb_spec t0 (amb_now (call_amb c) - RATE_LIMIT_WINDOW)); [lia|].
      destruct (Z.leb_spec MAX_REQUESTS n).
      * rewrite bool_decide_eq_true_2 by reflexivity. simpl.
        specialize (IH db n Hl Hrest). lia.
      * rewrite bool_decide_eq_true_2 by reflexivity. simpl is_admitted. cbn iota.
        assert (Hall' : Forall (fun c0 => call_key c0 = Some (u, call_endpoint c) ->
                  window_active (amb_now (call_amb c0)) (mkRateLimit (n + 1) t0)) calls).
        { eapply Forall_impl; [exact Hrest|]. intros c0 Hin Hk0. exact (Hin Hk0). }
        match goal with |- context [admissions _ _ ?db'] =>
          specialize (IH db' (n + 1)) end.
        simpl in IH. rewrite lookup_insert_eq in IH.
        specialize (IH eq_refl Hall'). cbn [andb]. lia.
    + pose proof (checkRateLimit_frame Empty_set (call_amb c) (call_endpoint c) db u key
                    Hauth (not_eq_sym Hne)) as Hfr.
      destruct (checkRateLimit (call_amb c) (call_endpoint c) db) as [r db'].
      simpl in Hfr.
      rewrite bool_decide_eq_false_2 by congruence. simpl.
      apply (IH db' n); [congruence|exact Hrest].
  - rewrite (checkRateLimit_unresolved _ _ _ _ (call_key_None _ Hk)).
    rewrite bool_decide_eq_false_2 by congruence. simpl.
    apply (IH db n); assumption.
Qed.

Lemma admissions_from_first key first calls db :
  opens_window key first db ->
  Forall (in_window key (amb_now (call_amb first))) calls ->
  Z.of_nat (admissions key (first :: calls) db) <= MAX_REQUESTS.
Proof.
  intros [Hk Hopen] Hall. simpl.
  destruct (checkRateLimit (call_amb first) (call_endpoint first) db) as [r db1].
  simpl in Hopen.
  pose proof (admissions_in_window key (amb_now (call_amb first)) calls db1 1 Hopen) as Hb.
  unfold MAX_REQUESTS in *.
  assert (Z.of_nat (admissions key calls db1) <= 99) by (apply Hb in Hall; lia).
  destruct (bool_decide (call_key first = Some key) && is_admitted r); lia.
Qed.

(** ** The rate limiter: claims C2, C3 and C7 *)

(** C7: a call of [checkRateLimit] for which no authenticated subject
    resolves (no session, no user, no user id) completes normally with
    [false], for every endpoint, and leaves the store as it is: the denial is
    a result, not a thrown error. *)
Theorem checkRateLimit_unauthenticated_denies :
  forall (R : Type) (amb : Ambient) (endpoint : string) (db : Db),
    (forall userId, ~ authenticated_as (amb_session amb) userId) ->
    checkRateLimit (R := R) amb endpoint db = (Normal false, db).
Proof.
  intros R amb endpoint db Hno. apply checkRateLimit_unresolved.
  destruct (session_user_id (amb_session amb)) as [[|a s]|] eqn:Hid; try reflexivity.
  exfalso. apply (Hno (String a s)). split; [exact Hid|discriminate].
Qed.

Lemma checkRateLimit_unauthenticated_denies_witness :
  (forall userId, ~ authenticated_as None userId) /\
  checkRateLimit (R := Empty_set) (mkAmbient None 1000) "chat"
    (counters [("alice", "chat", mkRateLimit 3 0)])
  = (Normal false, counters [("alice", "chat", mkRateLimit 3 0)]).
Proof.
  assert (H : forall userId, ~ authenticated_as None userId).
  { intros userId [Hid _]. discriminate Hid. }
  split; [exact H|].
  exact (checkRateLimit_unauthenticated_denies Empty_set (mkAmbient None 1000) "chat"
           (counters [("alice", "chat", mkRateLimit 3 0)]) H).
Defined.

(** A run whose calls do not overlap is a run of calls one after the
    other. *)
Lemma admissions_one_after_the_other key calls :
  forall history db,
    one_after_the_other calls ->
    admissions_overlapping key calls history db = admissions key (ov_call <$> calls) db.
Proof.
  induction calls as [|c calls IH]; intros history db Hall; [reflexivity|].
  inversion Hall as [|? ? Hlag Hrest]; subst. simpl.
  rewrite Hlag. unfold store_seen. simpl.
  rewrite <- checkRateLimit_not_interleaved.
  destruct (checkRateLimit (call_amb (ov_call c)) (call_endpoint (ov_call c)) db) as [r db'].
  by rewrite IH.
Qed.

Lemma authenticated_as_session_of userId :
  userId <> EmptyString -> authenticated_as (session_of userId) userId.
Proof. intros Hne. split; [reflexivity|exact Hne]. Qed.

(** C2, as stated, fails for calls that overlap.  [checkRateLimit] awaits
    its read and, later, its write; a second call that reads between the two
    decides on the count the first call has not yet raised.  In [burst] alice
    makes 101 calls on one endpoint within twelve milliseconds: the first
    opens the window, 98 follow one after the other, and the last two both
    read count 99.  All 101 are admitted inside the one window, and the
    counter ends at 101. *)
Lemma checkRateLimit_overlapping_calls_exceed_limit :
  opens_window ("alice", "chat") (mkCall (at_time "alice" 0) "chat") (counters [])
  /\ Forall (fun c => in_window ("alice", "chat") 0 (ov_call c)) burst
  /\ length burst = 101%nat
  /\ admissions_overlapping ("alice", "chat") burst [] (counters []) = 101%nat
  /\ rateLimits (after_overlapping burst [] (counters [])) !! ("alice", "chat")
     = Some (mkRateLimit 101 0)
  /\ ~ Z.of_nat (admissions_overlapping ("alice", "chat") burst [] (counters []))
       <= MAX_REQUESTS.
Proof.
  split; [split; vm_compute; reflexivity|].
  split.
  { unfold burst. constructor; [intros _; reflexivity|].
    apply Forall_app. split.
    - apply Forall_replicate. intros _. reflexivity.
    - repeat constructor. }
  split; [reflexivity|].
  assert (H : admissions_overlapping ("alice", "chat") burst [] (counters []) = 101%nat)
    by (vm_compute; reflexivity).
  split; [exact H|]. split; [vm_compute; reflexivity|].
  rewrite H. unfold MAX_REQUESTS. lia.
Qed.

(** C2, amended: among calls that do not overlap, [checkRateLimit] returns
    [true] at most MAX_REQUESTS = 100 times within one window, counting from
    the first admission of the window; this holds for calls run one after the
    other and, which is the same, for an overlapping run in which every call
    reads the store it writes on.  Call by call, also with other calls in
    between: when the counter the call reads has an active window and
    count >= MAX_REQUESTS, the call returns [false] and writes nothing, and
    every admission against an active window increments the stored count by
    exactly 1. *)
Theorem checkRateLimit_at_most_MAX_REQUESTS :
  MAX_REQUESTS = 100 /\
  (forall (R : Type) amb endpoint userId db r,
      authenticated_as (amb_session amb) userId ->
      rateLimits db !! (userId, endpoint) = Some r ->
      window_active (amb_now amb) r ->
      MAX_REQUESTS <= rl_count r ->
      checkRateLimit (R := R) amb endpoint db = (Normal false, db)) /\
  (forall (R : Type) amb endpoint userId db r db',
      authenticated_as (amb_session amb) userId ->
      rateLimits db !! (userId, endpoint) = Some r ->
      window_active (amb_now amb) r ->
      checkRateLimit (R := R) amb endpoint db = (Normal true, db') ->
      db' = set_rateLimits
              (insert (userId, endpoint) (mkRateLimit (rl_count r + 1) (rl_windowStart r))) db) /\
  (forall key first calls db,
      opens_window key first db ->
      Forall (in_window key (amb_now (call_amb first))) calls ->
      Z.of_nat (admissions key (first :: calls) db) <= MAX_REQUESTS) /\
  (forall (R : Type) amb endpoint userId seen db r,
      authenticated_as (amb_session amb) userId ->
      rateLimits seen !! (userId, endpoint) = Some r ->
      window_active (amb_now amb) r ->
      MAX_REQUESTS <= rl_count r ->
      checkRateLimit_interleaved (R := R) amb endpoint seen db = (Normal false, db)) /\
  (forall (R : Type) amb endpoint userId seen db r db',
      authenticated_as (amb_session amb) userId ->
      rateLimits seen !! (userId, endpoint) = Some r ->
      window_active (amb_now amb) r ->
      checkRateLimit_interleaved (R := R) amb endpoint seen db = (Normal true, db') ->
      exists r0,
        rateLimits db !! (userId, endpoint) = Some r0
        /\ db' = set_rateLimits
                   (insert (userId, endpoint)
                      (mkRateLimit (rl_count r0 + 1) (rl_windowStart r0))) db) /\
  (forall key first calls history db,
      one_after_the_other (first :: calls) ->
      opens_window key (ov_call first) db ->
      Forall (in_window key (amb_now (call_amb (ov_call first)))) (ov_call <$> calls) ->
      Z.of_nat (admissions_overlapping key (first :: calls) history db) <= MAX_REQUESTS).
Proof.
  split; [reflexivity|]. split; [|split; [|split; [|split; [|split]]]].
  - intros R amb endpoint userId db r Hauth Hl Hact Hmax.
    rewrite (checkRateLimit_present R amb endpoint db userId r Hauth Hl).
    unfold window_active in Hact.
    destruct (Z.ltb_spec (rl_windowStart r) (amb_now amb - RATE_LIMIT_WINDOW)); [lia|].
    destruct (Z.leb_spec MAX_REQUESTS (rl_count r)); [reflexivity|lia].
  - intros R amb endpoint userId db r db' Hauth Hl Hact Hres.
    rewrite (checkRateLimit_present R amb endpoint db userId r Hauth Hl) in Hres.
    unfold window_active in Hact.
    destruct (Z.ltb_spec (rl_windowStart r) (amb_now amb - RATE_LIMIT_WINDOW)); [lia|].
    destruct (MAX_REQUESTS <=? rl_count r); [discriminate|].
    by injection Hres as <-.
  - apply admissions_from_first.
  - intros R amb endpoint userId seen db r Hauth Hl Hact Hmax.
    rewrite (checkRateLimit_interleaved_resolved R amb endpoint seen db _
               (call_key_authenticated amb endpoint userId Hauth)), Hl.
    unfold window_active in Hact.
    destruct (Z.ltb_spec (rl_windowStart r) (amb_now amb - RATE_LIMIT_WINDOW)); [lia|].
    destruct (Z.leb_spec MAX_REQUESTS (rl_count r)); [reflexivity|lia].
  - intros R amb endpoint userId seen db r db' Hauth Hl Hact Hres.
    rewrite (checkRateLimit_interleaved_resolved R amb endpoint seen db _
               (call_key_authenticated amb endpoint userId Hauth)), Hl in Hres.
    unfold window_active in Hact.
    destruct (Z.ltb_spec (rl_windowStart r) (amb_now amb - RATE_LIMIT_WINDOW)); [lia|].
    destruct (MAX_REQUESTS <=? rl_count r); [discriminate|].
    destruct (rateLimits db !! (userId, endpoint)) as [r0|]; [|discriminate].
    exists r0. split; [reflexivity|]. by injection Hres as <-.
  - intros key first calls history db Hall Hopen Hin.
    rewrite (admissions_one_after_the_other key (first :: calls) history db Hall).
    by apply admissions_from_first.
Qed.

Lemma checkRateLimit_at_most_MAX_REQUESTS_witness :
  checkRateLimit (R := Empty_set) (at_time "alice" 1000) "chat"
    (counters [("alice", "chat", mkRateLimit 100 0)])
  = (Normal false, counters [("alice", "chat", mkRateLimit 100 0)])
  /\ Z.of_nat (admissions ("alice", "chat")
                 [mkCall (at_time "alice" 0) "chat"; mkCall (at_time "alice" 5) "chat"]
                 (counters []))
     <= MAX_REQUESTS
  /\ Z.of_nat (admissions_overlapping ("alice", "chat")
                 [mkOverlapping (mkCall (at_time "alice" 0) "chat") 0;
                  mkOverlapping (mkCall (at_time "alice" 5) "chat") 0]
                 [] (counters []))
     <= MAX_REQUESTS.
Proof.
  split; [|split].
  - apply (proj1 (proj2 checkRateLimit_at_most_MAX_REQUESTS)
             Empty_set (at_time "alice" 1000) "chat" "alice"
             (counters [("alice", "chat", mkRateLimit 100 0)]) (mkRateLimit 100 0)).
    + apply authenticated_as_session_of. discriminate.
    + vm_compute. reflexivity.
    + reflexivity.
    + discriminate.
  - apply (proj1 (proj2 (proj2 (proj2 checkRateLimit_at_most_MAX_REQUESTS)))).
    + split; vm_compute; reflexivity.
    + repeat constructor.
  - apply (proj2 (proj2 (proj2 (proj2 (proj2 (proj2 checkRateLimit_at_most_MAX_REQUESTS)))))).
    + repeat constructor.
    + split; vm_compute; reflexivity.
    + repeat constructor.
Defined.

(** C3, as stated, fails at the boundary: a counter whose window started
    exactly WINDOW_DURATION ago counts as expired for the specification, but
    [checkRateLimit] compares with a strict [<] and treats the window as
    still running.  With count = 100 the call is denied and nothing is
    reset. *)
Lemma checkRateLimit_expiry_boundary :
  let db := counters [("alice", "chat", mkRateLimit 100 0)] in
  let amb := at_time "alice" 900000 in
  authenticated_as (amb_session amb) "alice" /\
  rateLimits db !! ("alice", "chat") = Some (mkRateLimit 100 0) /\
  window_expired (amb_now amb) (mkRateLimit 100 0) /\
  checkRateLimit (R := Empty_set) amb "chat" db = (Normal false, db) /\
  checkRateLimit (R := Empty_set) amb "chat" db
  <> (Normal true,
      set_rateLimits (insert ("alice", "chat") (mkRateLimit 1 (amb_now amb))) db).
Proof.
  assert (Hrun : checkRateLimit (R := Empty_set) (at_time "alice" 900000) "chat"
                   (counters [("alice", "chat", mkRateLimit 100 0)])
                 = (Normal false, counters [("alice", "chat", mkRateLimit 100 0)])).
  { vm_compute. reflexivity. }
  cbv zeta. split; [|split; [|split; [|split]]].
  - apply authenticated_as_session_of. discriminate.
  - vm_compute. reflexivity.
  - vm_compute. discriminate.
  - exact Hrun.
  - rewrite Hrun. discriminate.
Qed.

(** C3, amended: for every subject and endpoint whose stored counter is
    older than the window (now - windowStart > WINDOW_DURATION = 15 minutes,
    strictly), the next [checkRateLimit] call returns [true] and resets the
    counter to count = 1 and windowStart = now, whatever the count was. *)
Theorem checkRateLimit_resets_expired_window :
  forall (R : Type) amb endpoint userId db r,
    authenticated_as (amb_session amb) userId ->
    rateLimits db !! (userId, endpoint) = Some r ->
    amb_now amb - rl_windowStart r > RATE_LIMIT_WINDOW ->
    RATE_LIMIT_WINDOW = 15 * 60 * 1000 /\
    checkRateLimit (R := R) amb endpoint db
    = (Normal true,
       set_rateLimits (insert (userId, endpoint) (mkRateLimit 1 (amb_now amb))) db).
Proof.
  intros R amb endpoint userId db r Hauth Hl Hold. split; [reflexivity|].
  rewrite (checkRateLimit_present R amb endpoint db userId r Hauth Hl).
  destruct (Z.ltb_spec (rl_windowStart r) (amb_now amb - RATE_LIMIT_WINDOW)); [reflexivity|lia].
Qed.

Lemma checkRateLimit_resets_expired_window_witness :
  checkRateLimit (R := Empty_set) (at_time "alice" 900001) "chat"
    (counters [("alice", "chat", mkRateLimit 100 0)])
  = (Normal true, counters [("alice", "chat", mkRateLimit 1 900001)]).
Proof.
  destruct (checkRateLimit_resets_expired_window Empty_set (at_time "alice" 900001) "chat"
              "alice" (counters [("alice", "chat", mkRateLimit 100 0)]) (mkRateLimit 100 0))
    as [_ ->].
  - apply authenticated_as_session_of. discriminate.
  - vm_compute. reflexivity.
  - reflexivity.
  - vm_compute. reflexivity.
Defined.

(** ** POST /api/chat, step by step *)

Module ChatFacts.
Import Chat ChatSpec.

Lemma resolved_lookup env su msg db cid k row db1 :
  resolved env su msg db cid k row db1 ->
  conversations db1 !! k = Some row.
Proof.
  intros [k' row' _ Hl _|cid' userId k' row' _ _ _ _]; [exact Hl|].
  simpl. apply lookup_insert_eq.
Qed.

Ltac chat_unfold :=
  unfold POST, request_json, content_of, sources_of, internal_server_error,
    axios.post, axios.request, conversation.findUnique, conversation.create,
    conversation.update, message.create, property, async_function, try_catch, bind,
    ret, return_, throw, never.

Ltac chat_run Hl :=
  repeat first
    [ rewrite Hl
    | rewrite lookup_insert_eq
    | progress cbn beta iota
    | progress cbn [conv_id conversation_of conversations messages set_messages
                    set_conversations fmap option_fmap option_map] ].

(** From the user message on, the two ways of resolving the conversation
    run the same code. *)
Ltac chat_tail Hl :=
  chat_run Hl;
  match goal with
  | |- context [env_network ?env ?req] =>
      destruct (env_network env req) as [? [|[?|] ?]|?|]
  end;
  try match goal with
  | |- context [(200 <=? ?status) && (?status <? 300)] =>
      destruct ((200 <=? status) && (status <? 300))
  end;
  chat_run Hl; reflexivity.

Lemma POST_turn R env db su cid msg k row db1 :
  chat_call env su cid msg ->
  resolved env su msg db cid k row db1 ->
  POST (R := R) env db
  = turn_outcome env k row msg db1 (env_network env (backend_request env su msg)).
Proof.
  intros (Hs & Hb & Hm) Hres.
  pose proof (resolved_lookup _ _ _ _ _ _ _ _ Hres) as Hl1.
  unfold turn_outcome, backend_request.
  chat_unfold. cbv zeta. rewrite Hs, Hb. cbn beta iota.
  destruct msg as [|a m]; [congruence|].
  cbn [message conversationId]. cbn beta iota.
  destruct Hres as [k row Hk Hl Hown|cid userId k row Hcid Hown -> ->].
  - destruct k as [|b k]; [congruence|]. cbn beta iota.
    rewrite Hl. cbn [fmap option_fmap option_map conversation_of conv_userId].
    rewrite bool_decide_eq_false_2 by (rewrite Hown; intros H; apply H; reflexivity).
    chat_tail Hl.
  - rewrite Hown.
    destruct cid as [[|b cid]|]; simpl in Hcid; try discriminate; chat_tail Hl1.
Qed.

(** A call either gets past conversation resolution, or ends there with
    an error response and the store as it was. *)
Lemma POST_resolution R env db :
  (exists su cid msg k row db1,
      chat_call env su cid msg /\ resolved env su msg db cid k row db1)
  \/ (exists res, POST (R := R) env db = (Normal res, db) /\ early_status (res_status res)).
Proof.
  unfold early_status. chat_unfold. cbv zeta.
  destruct (session_user (env_session env)) as [su|] eqn:Hs;
    [|right; eexists; split; [reflexivity|simpl; tauto]].
  destruct (env_body env) as [[cid msg]|] eqn:Hb;
    [|right; eexists; split; [reflexivity|simpl; tauto]].
  cbn [message conversationId]. cbn beta iota.
  destruct msg as [[|a m]|];
    try (right; eexists; split; [reflexivity|simpl; tauto]).
  assert (Hcall : chat_call env su cid (String a m)).
  { repeat split; [exact Hs|exact Hb|discriminate]. }
  destruct (su_id su) as [userId|] eqn:Hid.
  - destruct (truthy cid) eqn:Hcid.
    + destruct cid as [[|b k]|]; try discriminate. cbn beta iota.
      destruct (conversations db !! String b k) as [row|] eqn:Hl;
        cbn [fmap option_fmap option_map conversation_of conv_userId].
      * destruct (decide (row_userId row = userId)) as [Hu|Hu].
        -- left. exists su, (Some (String b k)), (String a m), (String b k), row, db.
           split; [exact Hcall|]. constructor; [discriminate|exact Hl|congruence].
        -- right. rewrite bool_decide_eq_true_2 by congruence.
           eexists; split; [reflexivity|simpl; tauto].
      * right. rewrite bool_decide_eq_true_2 by discriminate.
        eexists; split; [reflexivity|simpl; tauto].
    + left. eexists su, cid, (String a m), _, _, _.
      split; [exact Hcall|]. econstructor; [exact Hcid|exact Hid|reflexivity|reflexivity].
  - right. destruct cid as [[|b k]|]; cbn beta iota;
      try (eexists; split; [reflexivity|simpl; tauto]).
    destruct (conversations db !! String b k) as [row|] eqn:Hl;
      cbn [fmap option_fmap option_map conversation_of conv_userId].
    + rewrite bool_decide_eq_true_2 by discriminate.
      eexists; split; [reflexivity|simpl; tauto].
    + rewrite bool_decide_eq_false_2 by (intros H; apply H; reflexivity).
      eexists; split; [reflexivity|simpl; tauto].
Qed.

(** *** The handler and the rate-limit counters *)

Section Ignores.
Context {R A B : Type}.

Lemma ignores_ret (a : A) : ignores_rateLimits (ret (R := R) a).
Proof. intros f db. reflexivity. Qed.

Lemma ignores_return (r : R) : ignores_rateLimits (return_ (A := A) r).
Proof. intros f db. reflexivity. Qed.

Lemma ignores_throw (e : Exn) : ignores_rateLimits (throw (R := R) (A := A) e).
Proof. intros f db. reflexivity. Qed.

Lemma ignores_never : ignores_rateLimits (never (R := R) (A := A)).
Proof. intros f db. reflexivity. Qed.

Lemma ignores_bind (m : Async R A) (k : A -> Async R B) :
  ignores_rateLimits m -> (forall a, ignores_rateLimits (k a)) ->
  ignores_rateLimits (bind m k).
Proof.
  intros Hm Hk f db. unfold bind. rewrite Hm.
  destruct (m db) as [[a|r|e|] db']; try reflexivity. apply Hk.
Qed.

Lemma ignores_try_catch (m : Async R A) (h : Exn -> Async R A) :
  ignores_rateLimits m -> (forall e, ignores_rateLimits (h e)) ->
  ignores_rateLimits (try_catch m h).
Proof.
  intros Hm Hh f db. unfold try_catch. rewrite Hm.
  destruct (m db) as [[a|r|e|] db']; try reflexivity. apply Hh.
Qed.

Lemma ignores_async_function (m : Async A A) :
  ignores_rateLimits m -> ignores_rateLimits (async_function (R' := R) m).
Proof.
  intros Hm f db. unfold async_function. rewrite Hm.
  destruct (m db) as [[a|r|e|] db']; reflexivity.
Qed.

Lemma ignores_conversation_findUnique id :
  ignores_rateLimits (conversation.findUnique (R := R) id).
Proof. intros f db. reflexivity. Qed.

Lemma ignores_conversation_create now userId title :
  ignores_rateLimits (conversation.create (R := R) now userId title).
Proof. intros f db. unfold conversation.create. destruct userId; reflexivity. Qed.

Lemma ignores_conversation_update id updatedAt :
  ignores_rateLimits (conversation.update (R := R) id updatedAt).
Proof.
  intros f db. unfold conversation.update. cbn [conversations set_rateLimits].
  destruct (conversations db !! id); reflexivity.
Qed.

Lemma ignores_message_create now k role content sources :
  ignores_rateLimits (message.create (R := R) now k role content sources).
Proof.
  intros f db. unfold message.create. cbn [conversations set_rateLimits].
  destruct content; [|reflexivity]. destruct (conversations db !! k); reflexivity.
Qed.

End Ignores.

Ltac ignores :=
  lazymatch goal with
  | |- ignores_rateLimits (bind _ _) => apply ignores_bind; [ignores|intros ?; ignores]
  | |- ignores_rateLimits (try_catch _ _) =>
      apply ignores_try_catch; [ignores|intros ?; ignores]
  | |- ignores_rateLimits (async_function _) => apply ignores_async_function; ignores
  | |- ignores_rateLimits (match ?x with _ => _ end) => destruct x; ignores
  | |- _ =>
      first [ apply ignores_ret | apply ignores_return | apply ignores_throw
            | apply ignores_never | apply ignores_conversation_findUnique
            | apply ignores_conversation_create | apply ignores_conversation_update
            | apply ignores_message_create ]
  end.

Lemma POST_ignores_rateLimits R env : ignores_rateLimits (POST (R := R) env).
Proof.
  unfold POST, request_json, content_of, sources_of, internal_server_error,
    axios.post, axios.request, property.
  cbv zeta. ignores.
Qed.

Lemma resolved_messages env su msg db cid k row db1 :
  resolved env su msg db cid k row db1 -> messages db1 = messages db.
Proof. intros [|]; reflexivity. Qed.

Lemma messages_with_turn env k row msg content sources db1 :
  messages (with_turn env k row msg content sources db1)
  = messages db1 ++ [user_message env k msg db1;
                     assistant_message env k msg content sources db1].
Proof. unfold with_turn, with_user_message. simpl. by rewrite <- app_assoc. Qed.

Lemma POST_turn_rejected R env db su cid msg k row db1 :
  chat_call env su cid msg ->
  resolved env su msg db cid k row db1 ->
  axios_rejects (env_network env (backend_request env su msg)) ->
  POST (R := R) env db
  = (Normal (NextResponse.json (JChat k (assistant_message env k msg apology [] db1)) None),
     with_turn env k row msg apology [] db1).
Proof.
  intros Hcall Hres Hrej. rewrite (POST_turn R env db su cid msg k row db1 Hcall Hres).
  unfold turn_outcome.
  destruct (env_network env (backend_request env su msg)) as [status data|code|];
    simpl in Hrej; [rewrite Hrej|..]; [reflexivity|reflexivity|contradiction].
Qed.

Lemma POST_turn_success R env db su cid msg k row db1 res db' :
  chat_call env su cid msg ->
  resolved env su msg db cid k row db1 ->
  POST (R := R) env db = (Normal res, db') ->
  res_status res = 200 ->
  exists content sources,
    res = NextResponse.json (JChat k (assistant_message env k msg content sources db1)) None
    /\ db' = with_turn env k row msg content sources db1.
Proof.
  intros Hcall Hres Hrun Hst.
  rewrite (POST_turn R env db su cid msg k row db1 Hcall Hres) in Hrun.
  unfold turn_outcome in Hrun.
  destruct (env_network env (backend_request env su msg)) as [status data|code|].
  - destruct ((200 <=? status) && (status <? 300)).
    + destruct data as [|[content|] sources]; injection Hrun as <- <-;
        try discriminate Hst.
      eauto.
    + injection Hrun as <- <-. eauto.
  - injection Hrun as <- <-. eauto.
  - discriminate Hrun.
Qed.

Lemma chat_call_with_network net env su cid msg :
  chat_call env su cid msg -> chat_call (with_network net env) su cid msg.
Proof. intros H. exact H. Qed.

Lemma resolved_with_network net env su msg db cid k row db1 :
  resolved env su msg db cid k row db1 ->
  resolved (with_network net env) su msg db cid k row db1.
Proof.
  intros [k' row' Hk Hl Hown|cid' userId k' row' Hcid Hown Hk Hrow].
  - by constructor.
  - by econstructor.
Qed.

(** *** Claim C1: admission *)

(** C1, as stated, fails: alice's counter for "chat" stands at
    MAX_REQUESTS in an active window, so that [checkRateLimit] would deny
    her, and yet her POST /api/chat is served: a conversation is created
    and both messages are stored. *)
Lemma POST_serves_caller_at_limit :
  let db := counters [("alice", "chat", mkRateLimit 100 0)] in
  let env := hello None refusing 1003 in
  authenticated_as (env_session env) "alice" /\
  rateLimits db !! ("alice", "chat") = Some (mkRateLimit 100 0) /\
  window_active 1000 (mkRateLimit 100 0) /\
  MAX_REQUESTS <= rl_count (mkRateLimit 100 0) /\
  checkRateLimit (R := Empty_set) (mkAmbient (env_session env) 1000) "chat" db
  = (Normal false, db) /\
  status_of (fst (POST (R := Empty_set) env db)) = Some 200 /\
  map msg_role (messages (snd (POST (R := Empty_set) env db))) = [user; assistant] /\
  row_userId <$> conversations (snd (POST (R := Empty_set) env db)) !! "0" = Some "alice".
Proof.
  cbv zeta. split; [|split; [|split; [|split; [|split; [|split; [|split]]]]]].
  - apply authenticated_as_session_of. discriminate.
  - vm_compute. reflexivity.
  - reflexivity.
  - discriminate.
  - vm_compute. reflexivity.
  - vm_compute. reflexivity.
  - vm_compute. reflexivity.
  - vm_compute. reflexivity.
Qed.

(** C1, amended: POST /api/chat does not consult the rate limiter.  Whatever
    the rate-limit counters hold, the call runs as it would with any other
    counters, it hands the counters back unchanged, and it never answers
    with a rate-limit rejection (status 429): its statuses are 200, 400,
    401, 403 and 500. *)
Theorem POST_never_rate_limited :
  forall (R : Type) (env : Env) (db : Db),
    (forall f, POST (R := R) env (set_rateLimits f db)
               = (let '(c, db') := POST (R := R) env db in (c, set_rateLimits f db')))
    /\ rateLimits (snd (POST (R := R) env db)) = rateLimits db
    /\ (fst (POST (R := R) env db) = Pending
        \/ exists status,
             status_of (fst (POST (R := R) env db)) = Some status
             /\ (status = 200 \/ early_status status))
    /\ status_of (fst (POST (R := R) env db)) <> Some 429.
Proof.
  intros R env db.
  assert (Hstatus : fst (POST (R := R) env db) = Pending
                    \/ exists status,
                         status_of (fst (POST (R := R) env db)) = Some status
                         /\ (status = 200 \/ early_status status)).
  { destruct (POST_resolution R env db)
      as [(su & cid & msg & k & row & db1 & Hcall & Hres)|(res & -> & Hst)].
    - rewrite (POST_turn R env db su cid msg k row db1 Hcall Hres).
      unfold turn_outcome, early_status.
      destruct (env_network env (backend_request env su msg)) as [status data|code|];
        [destruct ((200 <=? status) && (status <? 300));
         [destruct data as [|[content|] sources]|]|..];
        first [ left; reflexivity
              | right; eexists; split; [reflexivity|vm_compute; lia] ].
    - right. exists (res_status res). split; [reflexivity|]. right. exact Hst. }
  split; [|split; [|split]].
  - intros f. apply POST_ignores_rateLimits.
  - pose proof (POST_ignores_rateLimits R env (fun _ => rateLimits db) db) as H.
    assert (Hdb : set_rateLimits (fun _ => rateLimits db) db = db) by (by destruct db).
    rewrite Hdb in H. destruct (POST env db) as [c db'].
    injection H as H. rewrite H at 1. reflexivity.
  - exact Hstatus.
  - destruct Hstatus as [->|(status & -> & Hst)]; [discriminate|].
    unfold early_status in Hst. intros [= H]. lia.
Qed.

(** *** Claim C6: conversation resolution *)

(** C6: a POST /api/chat that names a conversation which is not stored is
    answered with 403 Forbidden, not with a not-found response; the store
    is left as it was. *)
Theorem POST_unknown_conversation_is_forbidden :
  POST (R := Empty_set) (hello (Some "nope") refusing 1003) one_conversation
  = (Normal (NextResponse.json (JMessage "Forbidden") (Some 403)), one_conversation).
Proof. vm_compute. reflexivity. Qed.

(** *** Claim C4: the fallback answer *)

(** C4, as stated, fails for a malformed response: the backend answers 200
    with a null payload, the read of [assistantResponse.content] throws
    outside the inner try, and the call ends with 500 Internal server
    error; the user message is stored, no assistant message is. *)
Lemma POST_malformed_reply_is_internal_error :
  let env := hello None (fun _ => Replies 200 PNull) 1003 in
  let db := one_conversation in
  chat_call env alice None "hello" /\
  env_network env (backend_request env alice "hello") = Replies 200 PNull /\
  fst (POST (R := Empty_set) env db)
  = Normal (NextResponse.json (JMessage "Internal server error") (Some 500)) /\
  status_of (fst (POST (R := Empty_set) env db)) <> Some 200 /\
  map msg_role (messages (snd (POST (R := Empty_set) env db))) = [user].
Proof.
  cbv zeta. split; [|split; [|split; [|split]]].
  - repeat split. discriminate.
  - reflexivity.
  - vm_compute. reflexivity.
  - vm_compute. discriminate.
  - vm_compute. reflexivity.
Qed.

(** C4, amended: for every call that reaches the backend invocation, if the
    axios call rejects (a transport failure such as a network error or a
    socket timeout, or a reply whose status is not 2xx), the call still
    succeeds with status 200; the assistant content is the fixed apology,
    its sources are empty, and the user message and the assistant message
    are both stored, in that order. *)
Theorem POST_backend_failure_falls_back :
  forall (R : Type) env db su cid msg k row db1,
    chat_call env su cid msg ->
    resolved env su msg db cid k row db1 ->
    axios_rejects (env_network env (backend_request env su msg)) ->
    let um := user_message env k msg db1 in
    let am := assistant_message env k msg apology [] db1 in
    exists db',
      POST (R := R) env db = (Normal (NextResponse.json (JChat k am) None), db') /\
      res_status (NextResponse.json (JChat k am) None) = 200 /\
      msg_role um = user /\ msg_content um = msg /\
      msg_role am = assistant /\ msg_content am = apology /\ msg_sources am = [] /\
      messages db' = messages db ++ [um; am].
Proof.
  intros R env db su cid msg k row db1 Hcall Hres Hrej um am.
  exists (with_turn env k row msg apology [] db1).
  split; [exact (POST_turn_rejected R env db su cid msg k row db1 Hcall Hres Hrej)|].
  repeat split.
  rewrite messages_with_turn, (resolved_messages _ _ _ _ _ _ _ _ Hres). reflexivity.
Qed.

Lemma POST_backend_failure_falls_back_witness :
  exists db',
    POST (R := Empty_set) (hello (Some "c1") refusing 6000) one_conversation
    = (Normal (NextResponse.json
                 (JChat "c1" (mkMessage "1" "c1" assistant apology [] 1002)) None), db')
    /\ map msg_content (messages db') = ["hello"; apology].
Proof.
  destruct (POST_backend_failure_falls_back Empty_set (hello (Some "c1") refusing 6000)
              one_conversation alice (Some "c1") "hello" "c1"
              (mkConversationRow "alice" "first words" 4000 5000) one_conversation)
    as (db' & Hrun & _ & _ & _ & _ & _ & _ & Hms).
  - repeat split. discriminate.
  - constructor; [discriminate|vm_compute; reflexivity|reflexivity].
  - exact I.
  - exists db'. split; [exact Hrun|]. rewrite Hms. reflexivity.
Defined.

(** *** Claim C8: the backend call and time *)

(** C8, as stated, fails: the handler calls [axios.post(url, data)] without
    a config, so the request carries axios' default [timeout] of 0, which
    is no timeout; on a backend that never answers the call stays pending
    for good. *)
Lemma POST_pending_on_silent_backend :
  let env := hello None (fun _ => Silent) 1003 in
  req_timeout (backend_request env alice "hello") = 0 /\
  env_network env (backend_request env alice "hello") = Silent /\
  fst (POST (R := Empty_set) env one_conversation) = Pending.
Proof. cbv zeta. repeat split. Qed.

(** C8, amended: the backend invocation of POST /api/chat is issued with
    axios' defaults, that is with no timeout: when the backend never
    answers, the call stays pending, with the user message stored.  Every
    rejection of the axios call, a timeout reported by the transport
    included, gets the same fallback handling, whatever its error code. *)
Theorem POST_backend_call_without_timeout :
  forall (R : Type) env db su cid msg k row db1,
    chat_call env su cid msg ->
    resolved env su msg db cid k row db1 ->
    req_timeout (backend_request env su msg) = 0 /\
    (env_network env (backend_request env su msg) = Silent ->
     POST (R := R) env db = (Pending, with_user_message env k msg db1)) /\
    (forall code,
        env_network env (backend_request env su msg) = Fails code ->
        POST (R := R) env db
        = (Normal (NextResponse.json
                     (JChat k (assistant_message env k msg apology [] db1)) None),
           with_turn env k row msg apology [] db1)).
Proof.
  intros R env db su cid msg k row db1 Hcall Hres.
  split; [reflexivity|]. split.
  - intros Hsilent. rewrite (POST_turn R env db su cid msg k row db1 Hcall Hres), Hsilent.
    reflexivity.
  - intros code Hfails. apply (POST_turn_rejected R env db su cid msg k row db1 Hcall Hres).
    rewrite Hfails. exact I.
Qed.

Lemma POST_backend_call_without_timeout_witness :
  POST (R := Empty_set) (hello (Some "c1") (fun _ => Silent) 6000) one_conversation
  = (Pending,
     with_user_message (hello (Some "c1") (fun _ => Silent) 6000) "c1" "hello"
       one_conversation)
  /\ status_of (fst (POST (R := Empty_set) (hello (Some "c1") (fun _ => Fails "ETIMEDOUT") 6000)
                      one_conversation)) = Some 200.
Proof.
  split.
  - apply (proj1 (proj2 (POST_backend_call_without_timeout Empty_set
             (hello (Some "c1") (fun _ => Silent) 6000) one_conversation alice (Some "c1")
             "hello" "c1" (mkConversationRow "alice" "first words" 4000 5000)
             one_conversation
             ltac:(repeat split; discriminate)
             ltac:(constructor; [discriminate|vm_compute; reflexivity|reflexivity])))).
    reflexivity.
  - rewrite (proj2 (proj2 (POST_backend_call_without_timeout Empty_set
             (hello (Some "c1") (fun _ => Fails "ETIMEDOUT") 6000) one_conversation alice
             (Some "c1") "hello" "c1" (mkConversationRow "alice" "first words" 4000 5000)
             one_conversation
             ltac:(repeat split; discriminate)
             ltac:(constructor; [discriminate|vm_compute; reflexivity|reflexivity])))
             "ETIMEDOUT" eq_refl).
    reflexivity.
Defined.

(** *** Claim C5: one turn per successful call *)

(** C5, as stated, fails in its last part: the touch writes the reading of
    the clock at that moment, whatever the row holds.  Here the stored
    [updatedAt] is 5000 and [new Date()] reads 5000 as well: the call
    succeeds and [updatedAt] is not strictly larger than before. *)
Lemma POST_touch_not_strictly_later :
  let env := hello (Some "c1") refusing 5000 in
  let db' := snd (POST (R := Empty_set) env one_conversation) in
  status_of (fst (POST (R := Empty_set) env one_conversation)) = Some 200 /\
  row_updatedAt <$> conversations one_conversation !! "c1" = Some 5000 /\
  row_updatedAt <$> conversations db' !! "c1" = Some 5000 /\
  ~ (exists before after,
        row_updatedAt <$> conversations one_conversation !! "c1" = Some before /\
        row_updatedAt <$> conversations db' !! "c1" = Some after /\
        before < after).
Proof.
  cbv zeta.
  assert (Hbefore : row_updatedAt <$> conversations one_conversation !! "c1" = Some 5000)
    by (vm_compute; reflexivity).
  assert (Hafter : row_updatedAt <$>
                     conversations (snd (POST (R := Empty_set) (hello (Some "c1") refusing 5000)
                                           one_conversation)) !! "c1" = Some 5000)
    by (vm_compute; reflexivity).
  split; [vm_compute; reflexivity|]. split; [exact Hbefore|]. split; [exact Hafter|].
  intros (before & after & Hb & Ha & Hlt).
  rewrite Hbefore in Hb. rewrite Hafter in Ha.
  injection Hb as <-. injection Ha as <-. lia.
Qed.

(** C5, amended: every successful POST /api/chat appends exactly one user
    message and then exactly one assistant message to the resolved
    conversation, in that order; the user message is in the store while
    the backend call is outstanding (a backend that never answers leaves
    the call pending with the user message stored); and the conversation is
    touched once, its [updatedAt] set to the reading of the clock at the
    touch, which is strictly larger than the stored value exactly when that
    reading is later than it. *)
Theorem POST_success_appends_one_turn :
  forall (R : Type) env db res db',
    POST (R := R) env db = (Normal res, db') ->
    res_status res = 200 ->
    exists su cid msg k row db1 content sources,
      chat_call env su cid msg /\
      resolved env su msg db cid k row db1 /\
      let um := user_message env k msg db1 in
      let am := assistant_message env k msg content sources db1 in
      res_body res = JChat k am /\
      messages db' = messages db ++ [um; am] /\
      msg_role um = user /\ msg_content um = msg /\ msg_conversationId um = k /\
      msg_role am = assistant /\ msg_conversationId am = k /\
      POST (R := R) (with_network (fun _ => Silent) env) db
      = (Pending, set_messages (fun ms => ms ++ [um]) db1) /\
      messages (set_messages (fun ms => ms ++ [um]) db1) = messages db ++ [um] /\
      conversations db1 !! k = Some row /\
      conversations db' = <[k := touched row (env_now env)]> (conversations db1) /\
      row_updatedAt (touched row (env_now env)) = env_now env /\
      (row_updatedAt row < row_updatedAt (touched row (env_now env))
       <-> row_updatedAt row < env_now env).
Proof.
  intros R env db res db' Hrun Hst.
  destruct (POST_resolution R env db)
    as [(su & cid & msg & k & row & db1 & Hcall & Hres)|(res0 & Hearly & Hst0)].
  2:{ rewrite Hearly in Hrun. injection Hrun as <- <-.
      unfold early_status in Hst0. lia. }
  destruct (POST_turn_success R env db su cid msg k row db1 res db' Hcall Hres Hrun Hst)
    as (content & sources & -> & ->).
  exists su, cid, msg, k, row, db1, content, sources.
  split; [exact Hcall|]. split; [exact Hres|]. cbv zeta.
  split; [reflexivity|].
  split; [by rewrite messages_with_turn, (resolved_messages _ _ _ _ _ _ _ _ Hres)|].
  do 5 (split; [reflexivity|]).
  split.
  { rewrite (POST_turn R (with_network (fun _ => Silent) env) db su cid msg k row db1
               (chat_call_with_network _ _ _ _ _ Hcall)
               (resolved_with_network _ _ _ _ _ _ _ _ _ Hres)).
    reflexivity. }
  split; [simpl; by rewrite (resolved_messages _ _ _ _ _ _ _ _ Hres)|].
  split; [exact (resolved_lookup _ _ _ _ _ _ _ _ Hres)|].
  split; [reflexivity|]. split; reflexivity.
Qed.

Lemma POST_success_appends_one_turn_witness :
  exists db',
    POST (R := Empty_set) (hello (Some "c1") refusing 6000) one_conversation
    = (Normal (NextResponse.json
                 (JChat "c1" (mkMessage "1" "c1" assistant apology [] 1002)) None), db')
    /\ exists um am, messages db' = [um; am] /\ msg_role um = user /\ msg_role am = assistant.
Proof.
  assert (Hrun : POST (R := Empty_set) (hello (Some "c1") refusing 6000) one_conversation
                 = (Normal (NextResponse.json
                              (JChat "c1" (mkMessage "1" "c1" assistant apology [] 1002))
                              None),
                    snd (POST (R := Empty_set) (hello (Some "c1") refusing 6000)
                           one_conversation))).
  { vm_compute. reflexivity. }
  destruct (POST_success_appends_one_turn Empty_set (hello (Some "c1") refusing 6000)
              one_conversation _ _ Hrun eq_refl)
    as (su & cid & msg & k & row & db1 & content & sources & _ & _ & H).
  cbv zeta in H. destruct H as (_ & Hms & Hu & _ & _ & Ha & _).
  eexists. split; [exact Hrun|].
  eexists _, _. split; [exact Hms|]. split; [exact Hu|exact Ha].
Defined.

End ChatFacts.

(** ** POST /api/upload: claim C9 *)

Module UploadFacts.
Import Upload UploadSpec.

(** C9: for every upload by an authenticated user with a file present that
    gets as far as the trigger of the backend processing, if that axios
    call rejects, the handler still answers 200 with the document id, the
    stored filename and status "processing", and the store is the one
    left by the creation of the Document row: the row is not changed. *)
Theorem POST_upload_survives_trigger_failure :
  forall (R : Type) env db su userId file,
    session_user (env_session env) = Some su ->
    su_id su = Some userId ->
    env_formData env = Some (Some file) ->
    env_mkdir_ok env = true ->
    env_writeFile_ok env = true ->
    axios_rejects (env_network env (trigger_request env userId file db)) ->
    let document := created_document env userId file db in
    POST (R := R) env db
    = (Normal (NextResponse.json
                 (JUpload (doc_id document) (stored_filename env file) "processing") None),
       set_documents (fun ds => ds ++ [document]) db)
    /\ res_status (NextResponse.json
                     (JUpload (doc_id document) (stored_filename env file) "processing")
                     None) = 200
    /\ documents (set_documents (fun ds => ds ++ [document]) db)
       = documents db ++ [document]
    /\ doc_status document = "processing".
Proof.
  intros R env db su userId file Hs Hid Hform Hmk Hwr Hrej document.
  split; [|repeat split].
  unfold POST, request_formData, fs, internal_server_error, axios.post, axios.request,
    document.create, async_function, try_catch, bind.
  cbv zeta. rewrite Hs, Hform, Hmk, Hwr, Hid. unfold ret, return_, throw, never.
  cbn beta iota.
  unfold trigger_request, created_document, stored_filename in Hrej.
  cbn [doc_id] in Hrej |- *.
  match type of Hrej with
  | axios_rejects ?answer => destruct answer as [status data|code|]
  end; simpl in Hrej.
  - rewrite Hrej. reflexivity.
  - reflexivity.
  - contradiction.
Qed.

Lemma POST_upload_survives_trigger_failure_witness :
  POST (R := Empty_set) (upload_by_alice (fun _ => Fails "ECONNREFUSED"))
    (mkDb ∅ ∅ [] [] ∅)
  = (Normal (NextResponse.json
               (JUpload "0" "1700000000000-report.pdf" "processing") None),
     mkDb ∅ ∅ []
       [mkDocument "0" "alice" "1700000000000-report.pdf" "report.pdf" "application/pdf"
          2048 "processing"] ∅).
Proof.
  refine (eq_trans
    (proj1 (POST_upload_survives_trigger_failure Empty_set
              (upload_by_alice (fun _ => Fails "ECONNREFUSED")) (mkDb ∅ ∅ [] [] ∅)
              (mkSessionUser (Some "alice")) "alice" report
              eq_refl eq_refl eq_refl eq_refl eq_refl I)) _).
  vm_compute. reflexivity.
Defined.

End UploadFacts.

(** ** PUT on the password route: claim C10 *)

Module PasswordFacts.
Import Password PasswordSpec.

(** C10: for every password update whose supplied current password does not
    match the stored password hash, the handler answers with status 400
    and the store, the stored password with it, is unchanged. *)
Theorem PUT_wrong_current_password_rejected :
  forall (R : Type) env db su userId body supplied u stored,
    session_user (env_session env) = Some su ->
    su_id su = Some userId ->
    env_body env = Some body ->
    currentPassword body = Some supplied ->
    users db !! userId = Some u ->
    usr_password u = Some stored ->
    stored <> EmptyString ->
    env_compare env supplied stored = false ->
    exists res,
      PUT (R := R) env db = (Normal res, db) /\
      res_status res = 400 /\
      (usr_password <$> users db !! userId) = Some (Some stored).
Proof.
  intros R env db su userId body supplied u stored Hs Hid Hbody Hcur Hu Hpw Hne Hcmp.
  assert (Hkeep : usr_password <$> users db !! userId = Some (Some stored)).
  { rewrite Hu. simpl. by rewrite Hpw. }
  cut (exists res, PUT (R := R) env db = (Normal res, db) /\ res_status res = 400).
  { intros (res & Hrun & Hst). eauto. }
  unfold PUT, request_json, internal_server_error, user_.findUnique, user_.update_password,
    async_function, try_catch, bind.
  cbv zeta. rewrite Hs, Hbody. unfold ret, return_, throw. cbn beta iota.
  rewrite Hcur.
  destruct supplied as [|a supplied]; [eexists; split; reflexivity|].
  destruct (newPassword body) as [[|b new]|]; try (eexists; split; reflexivity).
  rewrite Hid. cbn beta iota. rewrite Hu. simpl. rewrite Hpw.
  destruct stored as [|c stored]; [congruence|].
  rewrite Hcmp. simpl.
  eexists; split; reflexivity.
Qed.

Lemma PUT_wrong_current_password_rejected_witness :
  exists res,
    PUT (R := Empty_set)
      (mkEnv (session_of "alice") (Some (mkPasswordRequest (Some "guess") (Some "fresh")))
         toy_compare toy_hash) alice_store
    = (Normal res, alice_store) /\ res_status res = 400.
Proof.
  destruct (PUT_wrong_current_password_rejected Empty_set
              (mkEnv (session_of "alice")
                 (Some (mkPasswordRequest (Some "guess") (Some "fresh")))
                 toy_compare toy_hash)
              alice_store (mkSessionUser (Some "alice")) "alice"
              (mkPasswordRequest (Some "guess") (Some "fresh")) "guess"
              (mkUser (Some "Alice") (Some "secret#")) "secret#")
    as (res & Hrun & Hst & _).
  - reflexivity.
  - reflexivity.
  - reflexivity.
  - reflexivity.
  - vm_compute. reflexivity.
  - reflexivity.
  - discriminate.
  - vm_compute. reflexivity.
  - exists res. split; [exact Hrun|exact Hst].
Defined.

End PasswordFacts.

(** * Further properties *)

(** ** The rate limiter, all cases at once *)

Lemma checkRateLimit_cases R amb endpoint db :
  (call_key (mkCall amb endpoint) = None
   /\ checkRateLimit (R := R) amb endpoint db = (Normal false, db))
  \/ exists userId,
       call_key (mkCall amb endpoint) = Some (userId, endpoint)
       /\ ((rateLimits db !! (userId, endpoint) = None
            /\ checkRateLimit (R := R) amb endpoint db
               = (Normal true,
                  set_rateLimits (insert (userId, endpoint) (mkRateLimit 1 (amb_now amb))) db))
           \/ exists r,
                rateLimits db !! (userId, endpoint) = Some r
                /\ ((rl_windowStart r < amb_now amb - RATE_LIMIT_WINDOW
                     /\ checkRateLimit (R := R) amb endpoint db
                        = (Normal true,
                           set_rateLimits
                             (insert (userId, endpoint) (mkRateLimit 1 (amb_now amb))) db))
                    \/ (amb_now amb - RATE_LIMIT_WINDOW <= rl_windowStart r
                        /\ MAX_REQUESTS <= rl_count r
                        /\ checkRateLimit (R := R) amb endpoint db = (Normal false, db))
                    \/ (amb_now amb - RATE_LIMIT_WINDOW <= rl_windowStart r
                        /\ rl_count r < MAX_REQUESTS
                        /\ checkRateLimit (R := R) amb endpoint db
                           = (Normal true,
                              set_rateLimits
                                (insert (userId, endpoint)
                                   (mkRateLimit (rl_count r + 1) (rl_windowStart r))) db)))).
Proof.
  destruct (call_key (mkCall amb endpoint)) as [[u e]|] eqn:Hk.
  - right. destruct (call_key_Some _ _ _ Hk) as [Hauth He]. simpl in Hauth, He. subst e.
    exists u. split; [reflexivity|].
    destruct (rateLimits db !! (u, endpoint)) as [r|] eqn:Hl.
    + right. exists r. split; [reflexivity|].
      rewrite (checkRateLimit_present R amb endpoint db u r Hauth Hl).
      destruct (Z.ltb_spec (rl_windowStart r) (amb_now amb - RATE_LIMIT_WINDOW)); [by left|].
      right. destruct (Z.leb_spec MAX_REQUESTS (rl_count r)); [by left|by right].
    + left. split; [reflexivity|]. by apply checkRateLimit_absent.
  - left. split; [reflexivity|]. apply checkRateLimit_unresolved.
    apply (call_key_None _ Hk).
Qed.

Ltac limiter_cases R amb endpoint db :=
  destruct (checkRateLimit_cases R amb endpoint db)
    as [[Hkey Hrun]
       |(userId & Hkey &
         [[Hlookup Hrun]
         |(r & Hlookup &
           [[Hold Hrun]|[(Hlive & Hfull & Hrun)|(Hlive & Hroom & Hrun)]])])];
  rewrite Hrun in *.

(** X1: a call of [checkRateLimit] that no other call overlaps always
    completes with a verdict, whatever the session, the endpoint, the clock
    and the store: it creates a counter only when none is stored and updates
    one only when it is stored.  With other calls in between the same holds
    as long as the counter of the call is stored at its write exactly when it
    was at its read; a call that read no counter and finds one at its write,
    as the later of two overlapping first calls does, has its [create]
    rejected and throws, and the store stays as it was. *)
Theorem checkRateLimit_answers_unless_overtaken :
  (forall (R : Type) amb endpoint db,
      exists verdict db', checkRateLimit (R := R) amb endpoint db = (Normal verdict, db'))
  /\ (forall (R : Type) amb endpoint seen db,
        (forall key, call_key (mkCall amb endpoint) = Some key ->
                     (is_Some (rateLimits seen !! key) <-> is_Some (rateLimits db !! key))) ->
        exists verdict db',
          checkRateLimit_interleaved (R := R) amb endpoint seen db = (Normal verdict, db'))
  /\ (forall (R : Type) amb endpoint seen db key,
        call_key (mkCall amb endpoint) = Some key ->
        rateLimits seen !! key = None ->
        is_Some (rateLimits db !! key) ->
        checkRateLimit_interleaved (R := R) amb endpoint seen db = (Thrown PrismaError, db)).
Proof.
  split; [|split].
  - intros R amb endpoint db. limiter_cases R amb endpoint db; eauto.
  - intros R amb endpoint seen db Hsame.
    destruct (call_key (mkCall amb endpoint)) as [key|] eqn:Hk.
    + rewrite (checkRateLimit_interleaved_resolved R amb endpoint seen db key Hk).
      specialize (Hsame key eq_refl).
      destruct (rateLimits seen !! key) as [r|], (rateLimits db !! key) as [r0|];
        repeat case_match; eauto.
      * destruct (proj1 Hsame) as [? ?]; [eauto|discriminate].
      * destruct (proj1 Hsame) as [? ?]; [eauto|discriminate].
      * destruct (proj2 Hsame) as [? ?]; [eauto|discriminate].
    + rewrite (checkRateLimit_interleaved_unresolved R amb endpoint seen db Hk). eauto.
  - intros R amb endpoint seen db key Hk Hseen [r0 Hdb].
    rewrite (checkRateLimit_interleaved_resolved R amb endpoint seen db key Hk).
    by rewrite Hseen, Hdb.
Qed.

Lemma checkRateLimit_answers_unless_overtaken_witness :
  (exists verdict db',
      checkRateLimit_interleaved (R := Empty_set) (at_time "alice" 11) "chat"
        (counters [("alice", "chat", mkRateLimit 99 0)])
        (counters [("alice", "chat", mkRateLimit 100 0)])
      = (Normal verdict, db'))
  /\ checkRateLimit_interleaved (R := Empty_set) (at_time "alice" 11) "chat"
       (counters []) (counters [("alice", "chat", mkRateLimit 1 10)])
     = (Thrown PrismaError, counters [("alice", "chat", mkRateLimit 1 10)]).
Proof.
  split.
  - apply (proj1 (proj2 checkRateLimit_answers_unless_overtaken)).
    intros key Hk. injection Hk as <-. split; intros _; vm_compute; eauto.
  - apply (proj2 (proj2 checkRateLimit_answers_unless_overtaken)
             Empty_set (at_time "alice" 11) "chat" (counters [])
             (counters [("alice", "chat", mkRateLimit 1 10)]) ("alice", "chat")).
    + reflexivity.
    + vm_compute. reflexivity.
    + vm_compute. eauto.
Defined.



Lemma checkRateLimit_other_keys R amb endpoint db key :
  call_key (mkCall amb endpoint) <> Some key ->
  rateLimits (snd (checkRateLimit (R := R) amb endpoint db)) !! key = rateLimits db !! key.
Proof.
  intros Hne. limiter_cases R amb endpoint db; simpl; try reflexivity;
    apply lookup_insert_ne; congruence.
Qed.

(** X3: a call of [checkRateLimit] touches at most the counter of its own
    (userId, endpoint): the counters of every other key and the other tables
    are handed back as they were. *)
Theorem checkRateLimit_touches_own_counter_only :
  forall (R : Type) amb endpoint db,
    let db' := snd (checkRateLimit (R := R) amb endpoint db) in
    (forall key, call_key (mkCall amb endpoint) <> Some key ->
                 rateLimits db' !! key = rateLimits db !! key)
    /\ conversations db' = conversations db
    /\ messages db' = messages db
    /\ documents db' = documents db
    /\ users db' = users db.
Proof.
  intros R amb endpoint db. cbv zeta.
  split; [intros key; apply checkRateLimit_other_keys|].
  limiter_cases R amb endpoint db; by repeat split.
Qed.

Lemma checkRateLimit_interleaved_other_keys R amb endpoint seen db key :
  call_key (mkCall amb endpoint) <> Some key ->
  rateLimits (snd (checkRateLimit_interleaved (R := R) amb endpoint seen db)) !! key
  = rateLimits db !! key.
Proof.
  intros Hne. destruct (call_key (mkCall amb endpoint)) as [k|] eqn:Hk.
  - rewrite (checkRateLimit_interleaved_resolved R amb endpoint seen db k Hk).
    repeat case_match; simpl; try reflexivity; apply lookup_insert_ne; congruence.
  - by rewrite (checkRateLimit_interleaved_unresolved R amb endpoint seen db Hk).
Qed.

(** What a call, with or without other calls in between, leaves of a stored
    counter. *)
Lemma checkRateLimit_interleaved_counter R amb endpoint seen db key old :
  rateLimits db !! key = Some old ->
  exists r',
    rateLimits (snd (checkRateLimit_interleaved (R := R) amb endpoint seen db)) !! key
    = Some r'
    /\ (rl_windowStart r' = rl_windowStart old
        \/ (call_key (mkCall amb endpoint) = Some key
            /\ r' = mkRateLimit 1 (amb_now amb)
            /\ exists s, rateLimits seen !! key = Some s
                         /\ RATE_LIMIT_WINDOW < amb_now amb - rl_windowStart s))
    /\ (rateLimits seen !! key = Some old -> rl_windowStart old <= rl_windowStart r').
Proof.
  intros Hr.
  destruct (decide (call_key (mkCall amb endpoint) = Some key)) as [Hk|Hk].
  - rewrite (checkRateLimit_interleaved_resolved R amb endpoint seen db key Hk), Hr.
    destruct (rateLimits seen !! key) as [s|] eqn:Hs.
    + destruct (Z.ltb_spec (rl_windowStart s) (amb_now amb - RATE_LIMIT_WINDOW)).
      * simpl. rewrite lookup_insert_eq. eexists. split; [reflexivity|]. split.
        -- right. split; [exact Hk|]. split; [reflexivity|]. exists s.
           split; [reflexivity|]. lia.
        -- intros [= ->]. simpl. unfold RATE_LIMIT_WINDOW in *. lia.
      * destruct (MAX_REQUESTS <=? rl_count s); simpl.
        -- exists old. split; [exact Hr|]. split; [by left|lia].
        -- rewrite lookup_insert_eq. eexists. split; [reflexivity|]. simpl.
           split; [by left|lia].
    + simpl. exists old. split; [exact Hr|]. split; [by left|discriminate].
  - exists old. split.
    + rewrite (checkRateLimit_interleaved_other_keys R amb endpoint seen db key Hk). exact Hr.
    + split; [by left|lia].
Qed.

(** X4: a stored counter is never removed, with or without other calls in
    between: after a call the counter is still stored, and its [windowStart]
    is the stored one or, when the call read a counter older than
    RATE_LIMIT_WINDOW, the clock reading of the call, with the count back at
    1.  For a call that reads the counter that is stored when it writes, so
    for every call that no other call overlaps, the window never moves
    backwards.  It can between overlapping calls: of two calls that both read
    the expired counter, the one with the earlier clock reading can write
    last. *)
Theorem checkRateLimit_keeps_counter_and_window :
  (forall (R : Type) amb endpoint seen db key old,
      rateLimits db !! key = Some old ->
      exists r',
        rateLimits (snd (checkRateLimit_interleaved (R := R) amb endpoint seen db)) !! key
        = Some r'
        /\ (rl_windowStart r' = rl_windowStart old
            \/ (call_key (mkCall amb endpoint) = Some key
                /\ r' = mkRateLimit 1 (amb_now amb)
                /\ exists s, rateLimits seen !! key = Some s
                             /\ RATE_LIMIT_WINDOW < amb_now amb - rl_windowStart s))
        /\ (rateLimits seen !! key = Some old -> rl_windowStart old <= rl_windowStart r'))
  /\ (forall (R : Type) amb endpoint db key old,
        rateLimits db !! key = Some old ->
        exists r',
          rateLimits (snd (checkRateLimit (R := R) amb endpoint db)) !! key = Some r'
          /\ rl_windowStart old <= rl_windowStart r'
          /\ (rl_windowStart r' <> rl_windowStart old ->
              call_key (mkCall amb endpoint) = Some key
              /\ rl_windowStart r' = amb_now amb
              /\ rl_count r' = 1
              /\ RATE_LIMIT_WINDOW < amb_now amb - rl_windowStart old))
  /\ (let seen := counters [("alice", "chat", mkRateLimit 100 0)] in
      let db1 :=
        snd (checkRateLimit_interleaved (R := Empty_set)
               (at_time "alice" 1000005) "chat" seen seen) in
      let db2 :=
        snd (checkRateLimit_interleaved (R := Empty_set)
               (at_time "alice" 1000000) "chat" seen db1) in
      rateLimits db1 !! ("alice", "chat") = Some (mkRateLimit 1 1000005)
      /\ rateLimits db2 !! ("alice", "chat") = Some (mkRateLimit 1 1000000)).
Proof.
  split; [|split].
  - intros R amb endpoint seen db key old. apply checkRateLimit_interleaved_counter.
  - intros R amb endpoint db key old Hr. rewrite checkRateLimit_not_interleaved.
    destruct (checkRateLimit_interleaved_counter R amb endpoint db db key old Hr)
      as (r' & Hr' & Hws & Hle).
    exists r'. split; [exact Hr'|]. split; [exact (Hle Hr)|].
    intros Hne. destruct Hws as [Hws|(Hk & -> & s & Hs & Hold)]; [congruence|].
    assert (s = old) as -> by congruence. by repeat split.
  - vm_compute. by split.
Qed.

Lemma checkRateLimit_keeps_counter_and_window_witness :
  (exists r',
      rateLimits (snd (checkRateLimit (R := Empty_set) (at_time "alice" 900001) "chat"
                         (counters [("alice", "chat", mkRateLimit 100 0)]))) !! ("alice", "chat")
      = Some r'
      /\ 0 <= rl_windowStart r')
  /\ (exists r',
         rateLimits (snd (checkRateLimit_interleaved (R := Empty_set)
                            (at_time "alice" 1000000) "chat"
                            (counters [("alice", "chat", mkRateLimit 100 0)])
                            (counters [("alice", "chat", mkRateLimit 1 1000005)])))
         !! ("alice", "chat")
         = Some r'
         /\ (rl_windowStart r' = 1000005 \/ r' = mkRateLimit 1 1000000)).
Proof.
  split.
  - destruct (proj1 (proj2 checkRateLimit_keeps_counter_and_window)
                Empty_set (at_time "alice" 900001) "chat"
                (counters [("alice", "chat", mkRateLimit 100 0)]) ("alice", "chat")
                (mkRateLimit 100 0))
      as (r' & Hr' & Hle & _).
    + vm_compute. reflexivity.
    + exists r'. split; [exact Hr'|exact Hle].
  - destruct (proj1 checkRateLimit_keeps_counter_and_window
                Empty_set (at_time "alice" 1000000) "chat"
                (counters [("alice", "chat", mkRateLimit 100 0)])
                (counters [("alice", "chat", mkRateLimit 1 1000005)]) ("alice", "chat")
                (mkRateLimit 1 1000005))
      as (r' & Hr' & Hws & _).
    + vm_compute. reflexivity.
    + exists r'. split; [exact Hr'|].
      destruct Hws as [Hws|(_ & Hnew & _)]; [left; exact Hws|right; exact Hnew].
Defined.

Lemma checkRateLimit_interleaved_positive R amb endpoint seen db :
  counters_positive db ->
  counters_positive (snd (checkRateLimit_interleaved (R := R) amb endpoint seen db)).
Proof.
  intros Hdb key r' Hr'.
  destruct (decide (call_key (mkCall amb endpoint) = Some key)) as [Hk|Hk].
  - rewrite (checkRateLimit_interleaved_resolved R amb endpoint seen db key Hk) in Hr'.
    destruct (rateLimits db !! key) as [r0|] eqn:Hr0.
    + pose proof (Hdb _ _ Hr0).
      repeat case_match; simpl in Hr'; rewrite ?lookup_insert_eq in Hr';
        first [ injection Hr' as <-; simpl; lia | rewrite Hr0 in Hr'; injection Hr' as <-; lia ].
    + repeat case_match; simpl in Hr'; rewrite ?lookup_insert_eq in Hr';
        first [ injection Hr' as <-; simpl; lia | congruence ].
  - rewrite (checkRateLimit_interleaved_other_keys R amb endpoint seen db key Hk) in Hr'.
    exact (Hdb _ _ Hr').
Qed.

(** X5: a count never falls below 1, with or without other calls in
    between: when every stored counter counts at least 1, so does every
    counter after a call and after any overlapping run.  For calls that do
    not overlap the count also stays at most MAX_REQUESTS: when every stored
    counter is between 1 and MAX_REQUESTS, so is every counter after any run
    of calls made one after the other, whoever makes them and whenever. *)
Theorem checkRateLimit_count_bounds :
  (forall (R : Type) amb endpoint seen db,
      counters_positive db ->
      counters_positive (snd (checkRateLimit_interleaved (R := R) amb endpoint seen db)))
  /\ (forall calls history db,
        counters_positive db -> counters_positive (after_overlapping calls history db))
  /\ (forall calls db,
        counters_in_range db -> counters_in_range (after_calls calls db)).
Proof.
  split; [|split].
  - intros R amb endpoint seen db. apply checkRateLimit_interleaved_positive.
  - induction calls as [|c calls IH]; intros history db Hdb; [exact Hdb|].
    simpl. apply IH. by apply checkRateLimit_interleaved_positive.
  - induction calls as [|c calls IH]; intros db Hdb; [exact Hdb|].
    simpl. apply IH. intros key r' Hr'.
    destruct (decide (call_key (mkCall (call_amb c) (call_endpoint c)) = Some key)) as [Hk|Hk].
    + revert Hr'.
      limiter_cases Empty_set (call_amb c) (call_endpoint c) db; try congruence;
        assert (key = (userId, call_endpoint c)) as -> by congruence; simpl;
        rewrite ?lookup_insert_eq; try (intros [= <-]; simpl; unfold MAX_REQUESTS; lia).
      * intros Hr'. exact (Hdb _ _ Hr').
      * intros [= <-]. simpl. pose proof (Hdb _ _ Hlookup). lia.
    + rewrite (checkRateLimit_other_keys _ _ _ _ _ Hk) in Hr'. exact (Hdb _ _ Hr').
Qed.

Lemma checkRateLimit_count_bounds_witness :
  counters_in_range
    (after_calls [mkCall (at_time "alice" 0) "chat"; mkCall (at_time "alice" 5) "chat"]
       (counters []))
  /\ counters_positive (after_overlapping burst [] (counters [])).
Proof.
  split.
  - apply (proj2 (proj2 checkRateLimit_count_bounds)).
    intros key r Hr. vm_compute in Hr. discriminate Hr.
  - apply (proj1 (proj2 checkRateLimit_count_bounds)).
    intros key r Hr. vm_compute in Hr. discriminate Hr.
Defined.

(** ** POST /api/chat: what every call keeps *)

Module ChatMore.
Import Chat ChatSpec.

(** The three shapes of the store after a call. *)
Lemma POST_store_cases R env db :
  (exists res, POST (R := R) env db = (Normal res, db) /\ early_status (res_status res))
  \/ exists su cid msg k row db1,
       chat_call env su cid msg /\ resolved env su msg db cid k row db1
       /\ ((snd (POST (R := R) env db) = with_user_message env k msg db1
            /\ status_of (fst (POST (R := R) env db)) <> Some 200
            /\ (forall st, status_of (fst (POST (R := R) env db)) = Some st -> st = 500))
           \/ exists content sources,
                POST (R := R) env db
                = (Normal (NextResponse.json
                             (JChat k (assistant_message env k msg content sources db1)) None),
                   with_turn env k row msg content sources db1)).
Proof.
  destruct (ChatFacts.POST_resolution R env db)
    as [(su & cid & msg & k & row & db1 & Hcall & Hres)|Hearly]; [right|by left].
  exists su, cid, msg, k, row, db1. split; [exact Hcall|]. split; [exact Hres|].
  rewrite (ChatFacts.POST_turn R env db su cid msg k row db1 Hcall Hres).
  unfold turn_outcome.
  destruct (env_network env (backend_request env su msg)) as [status data|code|];
    [destruct ((200 <=? status) && (status <? 300));
     [destruct data as [|[content|] sources]|]|..];
    first [ right; eexists _, _; reflexivity
          | left; simpl; repeat split; try discriminate; by intros st [= <-] ].
Qed.

(** X6: a call answered with 400, 401 or 403 has changed nothing: no
    conversation is created or touched and no message is stored. *)
Theorem POST_rejection_changes_nothing :
  forall (R : Type) env db res db',
    POST (R := R) env db = (Normal res, db') ->
    res_status res = 400 \/ res_status res = 401 \/ res_status res = 403 ->
    db' = db.
Proof.
  intros R env db res db' Hrun Hst.
  destruct (POST_store_cases R env db)
    as [(res0 & Hearly & _)
       |(su & cid & msg & k & row & db1 & _ & _ & [(_ & _ & H500)|(c & s & Hturn)])].
  - rewrite Hearly in Hrun. by injection Hrun as _ <-.
  - rewrite Hrun in H500. specialize (H500 _ eq_refl). lia.
  - rewrite Hturn in Hrun. injection Hrun as <- _. simpl in Hst. lia.
Qed.

Lemma POST_rejection_changes_nothing_witness :
  snd (POST (R := Empty_set) (hello (Some "nope") refusing 1003) one_conversation)
  = one_conversation.
Proof.
  apply (POST_rejection_changes_nothing Empty_set (hello (Some "nope") refusing 1003)
           one_conversation (NextResponse.json (JMessage "Forbidden") (Some 403))).
  - vm_compute. reflexivity.
  - right. right. reflexivity.
Defined.

(** X7: a call that names a stored conversation of another user is answered
    with 403 Forbidden and changes nothing, whatever the message is and
    whatever the backend would do. *)
Theorem POST_foreign_conversation_forbidden :
  forall (R : Type) env db su k msg row,
    chat_call env su (Some k) msg ->
    k <> EmptyString ->
    conversations db !! k = Some row ->
    su_id su <> Some (row_userId row) ->
    POST (R := R) env db
    = (Normal (NextResponse.json (JMessage "Forbidden") (Some 403)), db).
Proof.
  intros R env db su k msg row (Hs & Hb & Hm) Hk Hl Hown.
  ChatFacts.chat_unfold. cbv zeta. rewrite Hs, Hb. cbn beta iota.
  destruct msg as [|a m]; [congruence|]. cbn [message conversationId]. cbn beta iota.
  destruct k as [|b k]; [congruence|]. cbn beta iota. rewrite Hl.
  cbn [fmap option_fmap option_map conversation_of conv_userId].
  rewrite bool_decide_eq_true_2 by congruence. reflexivity.
Qed.

Lemma POST_foreign_conversation_forbidden_witness :
  POST (R := Empty_set)
    (mkEnv (session_of "bob") (Some (mkChatRequest (Some "c1") (Some "hello"))) None
       refusing 1000 1001 1002 1003)
    one_conversation
  = (Normal (NextResponse.json (JMessage "Forbidden") (Some 403)), one_conversation).
Proof.
  apply (POST_foreign_conversation_forbidden Empty_set _ one_conversation
           (mkSessionUser (Some "bob")) "c1" "hello"
           (mkConversationRow "alice" "first words" 4000 5000)).
  - repeat split. discriminate.
  - discriminate.
  - vm_compute. reflexivity.
  - discriminate.
Defined.

(** X8: validation comes first.  Without a session user the call is answered
    with 401; with one, a body whose message is missing or empty is answered
    with 400, also when it names a conversation, stored or not, the caller's
    or not.  In both cases nothing is changed. *)
Theorem POST_validates_before_anything :
  forall (R : Type) env db,
    (session_user (env_session env) = None ->
     POST (R := R) env db
     = (Normal (NextResponse.json (JMessage "Unauthorized") (Some 401)), db))
    /\ (forall su cid msg,
          session_user (env_session env) = Some su ->
          env_body env = Some (mkChatRequest cid msg) ->
          truthy msg = false ->
          POST (R := R) env db
          = (Normal (NextResponse.json (JMessage "Message is required") (Some 400)), db)).
Proof.
  intros R env db. split.
  - intros Hs. ChatFacts.chat_unfold. cbv zeta. rewrite Hs. reflexivity.
  - intros su cid msg Hs Hb Hm. ChatFacts.chat_unfold. cbv zeta. rewrite Hs, Hb.
    cbn beta iota. cbn [message].
    destruct msg as [[|a m]|]; simpl in Hm; try discriminate; reflexivity.
Qed.

Lemma POST_validates_before_anything_witness :
  POST (R := Empty_set)
    (mkEnv None (Some (mkChatRequest None (Some "hello"))) None refusing 1 2 3 4)
    one_conversation
  = (Normal (NextResponse.json (JMessage "Unauthorized") (Some 401)), one_conversation)
  /\ POST (R := Empty_set)
       (mkEnv (session_of "bob") (Some (mkChatRequest (Some "c1") (Some EmptyString))) None
          refusing 1 2 3 4)
       one_conversation
     = (Normal (NextResponse.json (JMessage "Message is required") (Some 400)),
        one_conversation).
Proof.
  split.
  - apply (proj1 (POST_validates_before_anything Empty_set _ one_conversation)).
    reflexivity.
  - apply (proj2 (POST_validates_before_anything Empty_set _ one_conversation)
             (mkSessionUser (Some "bob")) (Some "c1") (Some EmptyString));
      reflexivity.
Defined.

(** X9: the message table only grows, by a turn at most.  Whatever the call,
    the stored messages are kept, in order, and what is appended is nothing,
    or a user message, or a user message followed by an assistant message of
    the same conversation: no assistant message is stored without its user
    message. *)
Theorem POST_appends_at_most_one_turn :
  forall (R : Type) env db,
    exists new,
      messages (snd (POST (R := R) env db)) = messages db ++ new
      /\ (new = []
          \/ (exists um, new = [um] /\ msg_role um = user)
          \/ (exists um am,
                new = [um; am] /\ msg_role um = user /\ msg_role am = assistant
                /\ msg_conversationId um = msg_conversationId am)).
Proof.
  intros R env db.
  destruct (POST_store_cases R env db)
    as [(res0 & -> & _)
       |(su & cid & msg & k & row & db1 & _ & Hres & [(-> & _)|(c & s & ->)])].
  - exists []. split; [by rewrite app_nil_r|by left].
  - exists [user_message env k msg db1]. split.
    + simpl. by rewrite (ChatFacts.resolved_messages _ _ _ _ _ _ _ _ Hres).
    + right. left. eauto.
  - exists [user_message env k msg db1; assistant_message env k msg c s db1]. split.
    + simpl snd. rewrite ChatFacts.messages_with_turn.
      by rewrite (ChatFacts.resolved_messages _ _ _ _ _ _ _ _ Hres).
    + right. right. eexists _, _. repeat split.
Qed.

Lemma resolved_keeps_rows env su msg db cid k0 row0 db1 k row :
  resolved env su msg db cid k0 row0 db1 ->
  conversations db !! k = Some row ->
  conversations db1 !! k = Some row /\ (k0 = k -> row0 = row).
Proof.
  intros [k' row' _ Hl _|cid' userId k' row' _ _ -> ->] Hk.
  - split; [exact Hk|]. intros ->. congruence.
  - assert (Hne : new_id (dom (conversations db)) <> k).
    { intros <-. apply (is_fresh (dom (conversations db))).
      apply elem_of_dom. eauto. }
    split; [|congruence]. simpl. by rewrite lookup_insert_ne.
Qed.

(** X10: no call removes or re-owns a conversation.  A conversation that is
    stored before a call is stored after it, with the same owner, title and
    creation time; its [updatedAt] is as before or the reading of the clock
    at the touch. *)
Theorem POST_keeps_conversations :
  forall (R : Type) env db k row,
    conversations db !! k = Some row ->
    exists row',
      conversations (snd (POST (R := R) env db)) !! k = Some row'
      /\ row_userId row' = row_userId row
      /\ row_title row' = row_title row
      /\ row_createdAt row' = row_createdAt row
      /\ (row_updatedAt row' = row_updatedAt row \/ row_updatedAt row' = env_now env).
Proof.
  intros R env db k row Hk.
  destruct (POST_store_cases R env db)
    as [(res0 & -> & _)
       |(su & cid & msg & k0 & row0 & db1 & _ & Hres & [(-> & _)|(c & s & ->)])].
  - exists row. repeat split; [exact Hk|by left].
  - exists row. destruct (resolved_keeps_rows _ _ _ _ _ _ _ _ _ _ Hres Hk) as [Hk1 _].
    repeat split; [exact Hk1|by left].
  - destruct (resolved_keeps_rows _ _ _ _ _ _ _ _ _ _ Hres Hk) as [Hk1 Hsame].
    simpl snd. unfold with_turn. cbn [conversations set_conversations set_messages].
    destruct (decide (k0 = k)) as [Heq|Hne].
    + subst k0. rewrite (Hsame eq_refl). exists (touched row (env_now env)).
      rewrite lookup_insert_eq. repeat split. by right.
    + exists row. rewrite lookup_insert_ne by exact Hne.
      unfold with_user_message. cbn [conversations set_messages].
      repeat split; [exact Hk1|by left].
Qed.

Lemma POST_keeps_conversations_witness :
  exists row',
    conversations (snd (POST (R := Empty_set) (hello None refusing 6000) one_conversation))
      !! "c1" = Some row'
    /\ row_userId row' = "alice".
Proof.
  destruct (POST_keeps_conversations Empty_set (hello None refusing 6000) one_conversation
              "c1" (mkConversationRow "alice" "first words" 4000 5000))
    as (row' & Hl & Hu & _).
  - vm_compute. reflexivity.
  - exists row'. split; [exact Hl|exact Hu].
Defined.

(** X11: referential integrity is kept.  When every stored message belongs
    to a stored conversation before a call, the same holds after it, also
    when the call ends with an error or stays pending. *)
Theorem POST_keeps_messages_attached :
  forall (R : Type) env db,
    messages_have_conversations db ->
    messages_have_conversations (snd (POST (R := R) env db)).
Proof.
  intros R env db Hdb.
  destruct (POST_store_cases R env db)
    as [(res0 & -> & _)
       |(su & cid & msg & k0 & row0 & db1 & _ & Hres & [(-> & _)|(c & s & ->)])];
    [exact Hdb|..].
  - intros m Hm. unfold with_user_message in *. cbn [messages conversations set_messages] in *.
    rewrite (ChatFacts.resolved_messages _ _ _ _ _ _ _ _ Hres) in Hm.
    apply elem_of_app in Hm as [Hm|Hm].
    + destruct (Hdb m Hm) as [row Hrow].
      exists row. exact (proj1 (resolved_keeps_rows _ _ _ _ _ _ _ _ _ _ Hres Hrow)).
    + apply list_elem_of_singleton in Hm as ->. simpl.
      exists row0. exact (ChatFacts.resolved_lookup _ _ _ _ _ _ _ _ Hres).
  - intros m Hm. simpl snd in *. rewrite ChatFacts.messages_with_turn in Hm.
    rewrite (ChatFacts.resolved_messages _ _ _ _ _ _ _ _ Hres) in Hm.
    unfold with_turn. cbn [conversations set_conversations set_messages].
    unfold with_user_message. cbn [conversations set_messages].
    apply lookup_insert_is_Some'.
    destruct (decide (k0 = msg_conversationId m)) as [Heq|Hne]; [by left|right].
    apply elem_of_app in Hm as [Hm|Hm].
    + destruct (Hdb m Hm) as [row Hrow].
      exists row. exact (proj1 (resolved_keeps_rows _ _ _ _ _ _ _ _ _ _ Hres Hrow)).
    + exfalso. apply Hne.
      apply elem_of_cons in Hm as [->|Hm]; [reflexivity|].
      apply list_elem_of_singleton in Hm as ->. reflexivity.
Qed.

Lemma POST_keeps_messages_attached_witness :
  messages_have_conversations
    (snd (POST (R := Empty_set) (hello None refusing 6000) one_conversation)).
Proof.
  apply POST_keeps_messages_attached.
  intros m Hm. vm_compute in Hm. inversion Hm.
Defined.

(** X12: the answer of the backend is passed on as it is.  When the backend
    replies with a 2xx status and a payload with a string [content], the
    call succeeds, and the assistant message that is stored and returned
    carries that content and the payload's sources, or no sources when the
    payload has none. *)
Theorem POST_passes_backend_answer_on :
  forall (R : Type) env db su cid msg k row db1 status content sources,
    chat_call env su cid msg ->
    resolved env su msg db cid k row db1 ->
    env_network env (backend_request env su msg)
    = Replies status (PValue (Some content) sources) ->
    200 <= status < 300 ->
    exists am db',
      POST (R := R) env db = (Normal (NextResponse.json (JChat k am) None), db')
      /\ last (messages db') = Some am
      /\ msg_role am = assistant
      /\ msg_content am = content
      /\ msg_sources am = default [] sources.
Proof.
  intros R env db su cid msg k row db1 status content sources Hcall Hres Hnet Hst.
  rewrite (ChatFacts.POST_turn R env db su cid msg k row db1 Hcall Hres), Hnet.
  unfold turn_outcome.
  assert ((200 <=? status) && (status <? 300) = true) as -> by lia.
  eexists _, _. split; [reflexivity|].
  rewrite ChatFacts.messages_with_turn.
  split; [|by repeat split].
  rewrite last_app. reflexivity.
Qed.

Lemma POST_passes_backend_answer_on_witness :
  exists am db',
    POST (R := Empty_set)
      (hello (Some "c1")
         (fun _ => Replies 200 (PValue (Some "Refunds are allowed within 30 days.") None))
         6000)
      one_conversation
    = (Normal (NextResponse.json (JChat "c1" am) None), db')
    /\ msg_content am = "Refunds are allowed within 30 days."
    /\ msg_sources am = [].
Proof.
  destruct (POST_passes_backend_answer_on Empty_set
              (hello (Some "c1")
                 (fun _ => Replies 200 (PValue (Some "Refunds are allowed within 30 days.") None))
                 6000)
              one_conversation alice (Some "c1") "hello" "c1"
              (mkConversationRow "alice" "first words" 4000 5000) one_conversation
              200 "Refunds are allowed within 30 days." None)
    as (am & db' & Hrun & _ & _ & Hc & Hs).
  - repeat split. discriminate.
  - constructor; [discriminate|vm_compute; reflexivity|reflexivity].
  - reflexivity.
  - lia.
  - exists am, db'. split; [exact Hrun|]. split; [exact Hc|exact Hs].
Defined.

Lemma substring_0_length n s :
  String.length (String.substring 0 n s) = Nat.min n (String.length s).
Proof.
  revert s. induction n as [|n IH]; intros [|a s]; simpl; try reflexivity.
  by rewrite IH.
Qed.

Lemma substring_0_prefix n s : exists rest, s = String.substring 0 n s +:+ rest.
Proof.
  revert s. induction n as [|n IH]; intros [|a s]; simpl; eauto.
  destruct (IH s) as [rest Hrest]. exists rest.
  change (String a s = String a (String.substring 0 n s +:+ rest)). by f_equal.
Qed.

Lemma substring_0_all n s :
  (String.length s <= n)%nat -> String.substring 0 n s = s.
Proof.
  revert s. induction n as [|n IH]; intros [|a s]; simpl; intros Hlen;
    try reflexivity; try lia.
  rewrite IH by lia. reflexivity.
Qed.

(** X13: a call without a conversation id by a user with an id, and with a
    non-empty message, opens a conversation under an id no stored
    conversation has.  After the call, whatever the backend does, that
    conversation is stored and owned by the caller; its title is the first
    50 characters of the message: a prefix of it of at most 50 characters,
    and the whole message when the message has at most 50. *)
Theorem POST_opens_conversation :
  forall (R : Type) env db su cid msg userId,
    chat_call env su cid msg ->
    truthy cid = false ->
    su_id su = Some userId ->
    let k := new_id (dom (conversations db)) in
    conversations db !! k = None
    /\ exists row,
         conversations (snd (POST (R := R) env db)) !! k = Some row
         /\ row_userId row = userId
         /\ row_createdAt row = env_at_conversation env
         /\ (String.length (row_title row) <= 50)%nat
         /\ (exists rest, msg = row_title row +:+ rest)
         /\ ((String.length msg <= 50)%nat -> row_title row = msg).
Proof.
  intros R env db su cid msg userId Hcall Hcid Hid k.
  assert (Hfresh : conversations db !! k = None).
  { apply not_elem_of_dom. apply is_fresh. }
  split; [exact Hfresh|].
  pose (row := mkConversationRow userId (String.substring 0 50 msg)
                 (env_at_conversation env) (env_at_conversation env)).
  assert (Hres : resolved env su msg db cid k row (set_conversations (insert k row) db)).
  { by econstructor. }
  rewrite (ChatFacts.POST_turn R env db su cid msg k row _ Hcall Hres).
  assert (Htitle : (String.length (String.substring 0 50 msg) <= 50)%nat).
  { rewrite substring_0_length. lia. }
  unfold turn_outcome.
  destruct (env_network env (backend_request env su msg)) as [status data|code|];
    [destruct ((200 <=? status) && (status <? 300));
     [destruct data as [|[content|] sources]|]|..];
    simpl snd; unfold with_turn, with_user_message;
    cbn [conversations set_conversations set_messages];
    rewrite ?lookup_insert_eq;
    eexists; (split; [reflexivity|]); simpl;
    repeat split; auto using substring_0_prefix, substring_0_all.
Qed.

Lemma POST_opens_conversation_witness :
  exists row,
    conversations (snd (POST (R := Empty_set) (hello None refusing 6000) one_conversation))
      !! new_id (dom (conversations one_conversation)) = Some row
    /\ row_userId row = "alice" /\ row_title row = "hello".
Proof.
  destruct (POST_opens_conversation Empty_set (hello None refusing 6000) one_conversation
              alice None "hello" "alice")
    as (_ & row & Hl & Hu & _ & _ & _ & Ht).
  - repeat split. discriminate.
  - reflexivity.
  - reflexivity.
  - exists row. split; [exact Hl|]. split; [exact Hu|]. apply Ht. simpl. lia.
Defined.

End ChatMore.

(** ** POST /api/upload: the other paths *)

Module UploadMore.
Import Upload UploadSpec.

(** A call ends before any write, or it writes the row of the upload and
    then answers, unless the backend stays silent. *)
Lemma POST_upload_cases R env db :
  (exists res,
      POST (R := R) env db = (Normal res, db)
      /\ (res_status res = 400 \/ res_status res = 401 \/ res_status res = 500))
  \/ exists su userId file,
       session_user (env_session env) = Some su
       /\ su_id su = Some userId
       /\ env_formData env = Some (Some file)
       /\ POST (R := R) env db
          = (match env_network env (trigger_request env userId file db) with
             | Silent => Pending
             | _ => Normal (NextResponse.json
                              (JUpload (doc_id (created_document env userId file db))
                                 (stored_filename env file) "processing") None)
             end,
             set_documents (fun ds => ds ++ [created_document env userId file db]) db).
Proof.
  unfold POST, request_formData, fs, internal_server_error, axios.post, axios.request,
    document.create, async_function, try_catch, bind.
  cbv zeta. unfold ret, return_, throw, never.
  destruct (session_user (env_session env)) as [su|] eqn:Hs;
    [|left; eexists; split; [reflexivity|simpl; tauto]].
  destruct (env_formData env) as [[file|]|] eqn:Hform;
    try (left; eexists; split; [reflexivity|simpl; tauto]).
  cbn beta iota.
  destruct (env_mkdir_ok env); cbn beta iota;
    [|left; eexists; split; [reflexivity|simpl; tauto]].
  destruct (env_writeFile_ok env); cbn beta iota;
    [|left; eexists; split; [reflexivity|simpl; tauto]].
  destruct (su_id su) as [userId|] eqn:Hid; cbn beta iota;
    [|left; eexists; split; [reflexivity|simpl; tauto]].
  right. exists su, userId, file. repeat split; try assumption.
  unfold trigger_request, created_document, stored_filename. cbn [doc_id].
  match goal with
  | |- context [env_network env ?req] => destruct (env_network env req) as [status data|code|]
  end; try reflexivity.
  destruct ((200 <=? status) && (status <? 300)); reflexivity.
Qed.

(** X14: the answer to an upload does not depend on what the backend makes
    of the trigger.  For an authenticated user with a file, once the file is
    written, every reply of the backend (any status, any payload) and every
    rejection give the same 200 response and the same store; only a backend
    that never answers keeps the call pending. *)
Theorem POST_upload_ignores_backend_reply :
  forall (R : Type) env db su userId file,
    session_user (env_session env) = Some su ->
    su_id su = Some userId ->
    env_formData env = Some (Some file) ->
    env_mkdir_ok env = true ->
    env_writeFile_ok env = true ->
    env_network env (trigger_request env userId file db) <> Silent ->
    POST (R := R) env db
    = (Normal (NextResponse.json
                 (JUpload (doc_id (created_document env userId file db))
                    (stored_filename env file) "processing") None),
       set_documents (fun ds => ds ++ [created_document env userId file db]) db).
Proof.
  intros R env db su userId file Hs Hid Hform Hmk Hwr Hnet.
  destruct (POST_upload_cases R env db)
    as [(res & Hrun & Hst)|(su' & userId' & file' & Hs' & Hid' & Hform' & Hrun)].
  - exfalso. revert Hrun.
    unfold POST, request_formData, fs, internal_server_error, axios.post, axios.request,
      document.create, async_function, try_catch, bind.
    cbv zeta. rewrite Hs, Hform, Hmk, Hwr, Hid. unfold ret, return_, throw, never.
    cbn beta iota.
    match goal with
    | |- context [env_network env ?req] =>
        destruct (env_network env req) as [status data|code|] eqn:Hreq
    end.
    + destruct ((200 <=? status) && (status <? 300)); intros [= <- _]; simpl in Hst; lia.
    + intros [= <- _]. simpl in Hst. lia.
    + discriminate.
  - assert (su' = su) as -> by congruence.
    assert (userId' = userId) as -> by congruence.
    assert (file' = file) as -> by congruence.
    rewrite Hrun.
    destruct (env_network env (trigger_request env userId file db)); congruence.
Qed.

Lemma POST_upload_ignores_backend_reply_witness :
  POST (R := Empty_set) (upload_by_alice (fun _ => Replies 500 PNull)) (mkDb ∅ ∅ [] [] ∅)
  = POST (R := Empty_set) (upload_by_alice (fun _ => Replies 200 (PValue None None)))
      (mkDb ∅ ∅ [] [] ∅).
Proof.
  rewrite (POST_upload_ignores_backend_reply Empty_set
             (upload_by_alice (fun _ => Replies 500 PNull)) (mkDb ∅ ∅ [] [] ∅)
             (mkSessionUser (Some "alice")) "alice" report
             eq_refl eq_refl eq_refl eq_refl eq_refl ltac:(discriminate)).
  rewrite (POST_upload_ignores_backend_reply Empty_set
             (upload_by_alice (fun _ => Replies 200 (PValue None None))) (mkDb ∅ ∅ [] [] ∅)
             (mkSessionUser (Some "alice")) "alice" report
             eq_refl eq_refl eq_refl eq_refl eq_refl ltac:(discriminate)).
  reflexivity.
Defined.

(** X15: an upload writes at most one row, and only to the document table.
    Whatever the call, the stored documents are kept, in order; either the
    store is unchanged, or exactly one row is appended, under an id no
    stored document has, owned by the caller, with status "processing" and
    the name, type and size of the file.  A call answered with a status
    other than 200 has changed nothing. *)
Theorem POST_upload_writes_one_row_at_most :
  forall (R : Type) env db,
    let db' := snd (POST (R := R) env db) in
    (db' = db
     \/ exists d file,
          db' = set_documents (fun ds => ds ++ [d]) db
          /\ env_formData env = Some (Some file)
          /\ (doc_id d ∉ map doc_id (documents db))
          /\ session_user_id (env_session env) = Some (doc_userId d)
          /\ doc_status d = "processing"
          /\ doc_originalName d = file_name file
          /\ doc_fileType d = file_type file
          /\ doc_fileSize d = file_size file)
    /\ (forall st, response_status (fst (POST (R := R) env db)) = Some st ->
                   st <> 200 -> db' = db).
Proof.
  intros R env db. cbv zeta.
  destruct (POST_upload_cases R env db)
    as [(res & -> & Hst)|(su & userId & file & Hs & Hid & Hform & ->)].
  - split; [by left|]. reflexivity.
  - split.
    + right. exists (created_document env userId file db), file.
      split; [reflexivity|]. split; [exact Hform|]. split.
      * unfold created_document, new_id. cbn [doc_id]. intros Hin.
        apply (is_fresh (list_to_set (map doc_id (documents db)) : gset string)).
        apply elem_of_list_to_set. exact Hin.
      * repeat split. unfold session_user_id. rewrite Hs. simpl. exact Hid.
    + intros st.
      destruct (env_network env (trigger_request env userId file db)); simpl;
        intros [= <-]; congruence.
Qed.

Lemma string_length_app (s t : string) :
  String.length (s +:+ t) = (String.length s + String.length t)%nat.
Proof.
  induction s as [|a s IH]; [reflexivity|].
  change (S (String.length (s +:+ t)) = S (String.length s + String.length t)).
  by rewrite IH.
Qed.

Lemma string_app_inv_tail (s1 s2 t : string) : s1 +:+ t = s2 +:+ t -> s1 = s2.
Proof.
  revert s2. induction s1 as [|a s1 IH]; intros [|b s2] H.
  - reflexivity.
  - apply (f_equal String.length) in H.
    change (String.length t = S (String.length (s2 +:+ t))) in H.
    rewrite string_length_app in H. lia.
  - apply (f_equal String.length) in H.
    change (S (String.length (s1 +:+ t)) = String.length t) in H.
    rewrite string_length_app in H. lia.
  - change (String a (s1 +:+ t) = String b (s2 +:+ t)) in H.
    injection H as -> H. f_equal. by apply IH.
Qed.

(** X16: uploading a file of the same name again at another reading of
    [Date.now()] never reuses the stored filename: the two successful calls
    answer with different filenames. *)
Theorem POST_upload_filenames_differ :
  forall (R : Type) env1 env2 db1 db2 file1 file2 id1 id2 name1 name2 st1 st2 db1' db2',
    env_formData env1 = Some (Some file1) ->
    env_formData env2 = Some (Some file2) ->
    file_name file1 = file_name file2 ->
    env_Date_now env1 <> env_Date_now env2 ->
    POST (R := R) env1 db1 = (Normal (NextResponse.json (JUpload id1 name1 st1) None), db1') ->
    POST (R := R) env2 db2 = (Normal (NextResponse.json (JUpload id2 name2 st2) None), db2') ->
    name1 <> name2.
Proof.
  intros R env1 env2 db1 db2 file1 file2 id1 id2 name1 name2 st1 st2 db1' db2'
    Hf1 Hf2 Hname Hnow Hrun1 Hrun2 Heq.
  assert (Hn1 : name1 = stored_filename env1 file1).
  { destruct (POST_upload_cases R env1 db1)
      as [(res & Hrun & Hst)|(su & userId & file & _ & _ & Hform & Hrun)];
      rewrite Hrun in Hrun1.
    - injection Hrun1 as -> _. simpl in Hst. lia.
    - assert (file = file1) as -> by congruence.
      destruct (env_network env1 (trigger_request env1 userId file1 db1));
        first [discriminate Hrun1 | inversion Hrun1; congruence]. }
  assert (Hn2 : name2 = stored_filename env2 file2).
  { destruct (POST_upload_cases R env2 db2)
      as [(res & Hrun & Hst)|(su & userId & file & _ & _ & Hform & Hrun)];
      rewrite Hrun in Hrun2.
    - injection Hrun2 as -> _. simpl in Hst. lia.
    - assert (file = file2) as -> by congruence.
      destruct (env_network env2 (trigger_request env2 userId file2 db2));
        first [discriminate Hrun2 | inversion Hrun2; congruence]. }
  apply Hnow. rewrite Hn1, Hn2 in Heq. unfold stored_filename in Heq.
  rewrite Hname in Heq. apply string_app_inv_tail in Heq.
  by apply (inj pretty) in Heq.
Qed.

Lemma POST_upload_filenames_differ_witness :
  "1700000000000-report.pdf" <> "1700000000001-report.pdf".
Proof.
  apply (POST_upload_filenames_differ Empty_set
           (mkEnv (session_of "alice") (Some (Some report)) true true "/srv/app"
              1700000000000 None (fun _ => Fails "ECONNREFUSED"))
           (mkEnv (session_of "alice") (Some (Some report)) true true "/srv/app"
              1700000000001 None (fun _ => Fails "ECONNREFUSED"))
           (mkDb ∅ ∅ [] [] ∅) (mkDb ∅ ∅ [] [] ∅) report report "0" "0"
           "1700000000000-report.pdf" "1700000000001-report.pdf" "processing" "processing"
           (snd (POST (R := Empty_set)
                   (mkEnv (session_of "alice") (Some (Some report)) true true "/srv/app"
                      1700000000000 None (fun _ => Fails "ECONNREFUSED"))
                   (mkDb ∅ ∅ [] [] ∅)))
           (snd (POST (R := Empty_set)
                   (mkEnv (session_of "alice") (Some (Some report)) true true "/srv/app"
                      1700000000001 None (fun _ => Fails "ECONNREFUSED"))
                   (mkDb ∅ ∅ [] [] ∅)))).
  - reflexivity.
  - reflexivity.
  - reflexivity.
  - discriminate.
  - vm_compute. reflexivity.
  - vm_compute. reflexivity.
Defined.

End UploadMore.

(** ** PUT on the password route: the other paths *)

Module PasswordMore.
Import Password PasswordSpec.

(** A call ends without a write, or it replaces the password of the caller
    by the hash of the new one. *)
Lemma PUT_password_cases R env db :
  (exists res,
      PUT (R := R) env db = (Normal res, db)
      /\ (res_status res = 400 \/ res_status res = 401 \/ res_status res = 404
          \/ res_status res = 500))
  \/ exists su userId body supplied new u stored,
       session_user (env_session env) = Some su
       /\ su_id su = Some userId
       /\ env_body env = Some body
       /\ currentPassword body = Some supplied
       /\ newPassword body = Some new
       /\ new <> EmptyString
       /\ users db !! userId = Some u
       /\ usr_password u = Some stored
       /\ env_compare env supplied stored = true
       /\ PUT (R := R) env db
          = (Normal (NextResponse.json (JMessage "Password updated successfully") None),
             set_users (insert userId (mkUser (usr_name u) (Some (env_hash env new 12)))) db).
Proof.
  unfold PUT, request_json, internal_server_error, user_.findUnique, user_.update_password,
    async_function, try_catch, bind.
  cbv zeta. unfold ret, return_, throw.
  destruct (session_user (env_session env)) as [su|] eqn:Hs;
    [|left; eexists; split; [reflexivity|simpl; tauto]].
  destruct (env_body env) as [body|] eqn:Hb;
    [|left; eexists; split; [reflexivity|simpl; tauto]].
  cbn beta iota.
  destruct (currentPassword body) as [[|a supplied]|] eqn:Hcur;
    try (left; eexists; split; [reflexivity|simpl; tauto]).
  destruct (newPassword body) as [[|b new]|] eqn:Hnew;
    try (left; eexists; split; [reflexivity|simpl; tauto]).
  destruct (su_id su) as [userId|] eqn:Hid; cbn beta iota;
    [|left; eexists; split; [reflexivity|simpl; tauto]].
  destruct (users db !! userId) as [u|] eqn:Hu; simpl;
    [|left; eexists; split; [reflexivity|simpl; tauto]].
  destruct (usr_password u) as [[|c stored]|] eqn:Hpw;
    try (left; eexists; split; [reflexivity|simpl; tauto]).
  destruct (env_compare env (String a supplied) (String c stored)) eqn:Hcmp; simpl;
    [|left; eexists; split; [reflexivity|simpl; tauto]].
  right. rewrite Hu. simpl.
  exists su, userId, body, (String a supplied), (String b new), u, (String c stored).
  repeat split; try assumption; discriminate.
Qed.

(** X17: a password update only ever changes the password of the caller.
    Whatever the call, no user is removed, no name changes, the rows of the
    other users and the other tables are handed back as they were; and the
    caller's password is changed only by a call answered with 200, to the
    hash, with cost 12, of the new password of the request. *)
Theorem PUT_changes_own_password_only :
  forall (R : Type) env db,
    let db' := snd (PUT (R := R) env db) in
    rateLimits db' = rateLimits db
    /\ conversations db' = conversations db
    /\ messages db' = messages db
    /\ documents db' = documents db
    /\ (forall id u,
          users db !! id = Some u ->
          exists u',
            users db' !! id = Some u'
            /\ usr_name u' = usr_name u
            /\ (usr_password u' <> usr_password u ->
                session_user_id (env_session env) = Some id
                /\ response_status (fst (PUT (R := R) env db)) = Some 200
                /\ exists new, (env_body env ≫= newPassword) = Some new
                               /\ usr_password u' = Some (env_hash env new 12))).
Proof.
  intros R env db. cbv zeta.
  destruct (PUT_password_cases R env db)
    as [(res & -> & _)
       |(su & userId & body & supplied & new & u0 & stored
         & Hs & Hid & Hb & Hcur & Hnew & Hne & Hu & Hpw & Hcmp & ->)].
  - repeat split. intros id u Hl. exists u. repeat split; [exact Hl|congruence..].
  - repeat split. intros id u Hl. simpl.
    destruct (decide (userId = id)) as [<-|Hother].
    + rewrite lookup_insert_eq. eexists. split; [reflexivity|].
      assert (u = u0) as -> by congruence.
      split; [reflexivity|]. intros _. simpl.
      split; [unfold session_user_id; rewrite Hs; exact Hid|].
      split; [reflexivity|]. exists new. rewrite Hb. simpl. by split.
    + rewrite lookup_insert_ne by exact Hother. exists u.
      repeat split; [exact Hl|congruence..].
Qed.

Lemma PUT_changes_own_password_only_witness :
  exists u',
    users (snd (PUT (R := Empty_set)
                  (mkEnv (session_of "alice")
                     (Some (mkPasswordRequest (Some "secret") (Some "fresh")))
                     toy_compare toy_hash) alice_store)) !! "alice" = Some u'
    /\ usr_name u' = Some "Alice".
Proof.
  destruct (proj2 (proj2 (proj2 (proj2
              (PUT_changes_own_password_only Empty_set
                 (mkEnv (session_of "alice")
                    (Some (mkPasswordRequest (Some "secret") (Some "fresh")))
                    toy_compare toy_hash) alice_store))))
              "alice" (mkUser (Some "Alice") (Some "secret#")))
    as (u' & Hl & Hn & _).
  - vm_compute. reflexivity.
  - exists u'. split; [exact Hl|exact Hn].
Defined.

Lemma PUT_with_user R env db su userId body supplied new u stored :
  session_user (env_session env) = Some su ->
  su_id su = Some userId ->
  env_body env = Some body ->
  currentPassword body = Some supplied ->
  newPassword body = Some new ->
  new <> EmptyString ->
  users db !! userId = Some u ->
  usr_password u = Some stored ->
  stored <> EmptyString ->
  PUT (R := R) env db
  = if bool_decide (supplied = EmptyString) then
      (Normal (NextResponse.json (JMessage "All fields are required") (Some 400)), db)
    else if env_compare env supplied stored then
      (Normal (NextResponse.json (JMessage "Password updated successfully") None),
       set_users (insert userId (mkUser (usr_name u) (Some (env_hash env new 12)))) db)
    else
      (Normal (NextResponse.json (JMessage "Current password is incorrect") (Some 400)), db).
Proof.
  intros Hs Hid Hb Hcur Hnew Hne Hu Hpw Hstored.
  unfold PUT, request_json, internal_server_error, user_.findUnique, user_.update_password,
    async_function, try_catch, bind.
  cbv zeta. unfold ret, return_, throw. rewrite Hs, Hb. cbn beta iota.
  rewrite Hcur, Hnew.
  destruct supplied as [|a supplied]; [reflexivity|].
  destruct new as [|b new]; [congruence|].
  rewrite bool_decide_eq_false_2 by discriminate.
  rewrite Hid. cbn beta iota. rewrite Hu. simpl. rewrite Hpw.
  destruct stored as [|c stored]; [congruence|].
  destruct (env_compare env (String a supplied) (String c stored)); simpl; [|reflexivity].
  rewrite Hu. reflexivity.
Qed.

(** X18: a changed password is the one that counts from then on.  When
    bcrypt's [compare] accepts a password against its own hash and the hash
    is not empty, then after a successful update to a new password a
    further update that gives the new password as the current one is
    accepted, and one that gives a password [compare] rejects against the
    new hash is answered with 400 and changes nothing. *)
Theorem PUT_new_password_takes_effect :
  forall (R : Type) env db res db1 new env2 supplied2 new2,
    PUT (R := R) env db = (Normal res, db1) ->
    res_status res = 200 ->
    (env_body env ≫= newPassword) = Some new ->
    env_compare env new (env_hash env new 12) = true ->
    env_hash env new 12 <> EmptyString ->
    env_session env2 = env_session env ->
    env_compare env2 = env_compare env ->
    env_body env2 = Some (mkPasswordRequest (Some supplied2) (Some new2)) ->
    new2 <> EmptyString ->
    (supplied2 = new ->
     response_status (fst (PUT (R := R) env2 db1)) = Some 200)
    /\ (env_compare env supplied2 (env_hash env new 12) = false ->
        exists res2, PUT (R := R) env2 db1 = (Normal res2, db1) /\ res_status res2 = 400).
Proof.
  intros R env db res db1 new env2 supplied2 new2 Hrun Hst Hnew Hsound Hhash
    Hsess Hcmp2 Hb2 Hnew2.
  destruct (PUT_password_cases R env db)
    as [(res0 & Hrun0 & Hst0)
       |(su & userId & body & supplied & new' & u & stored
         & Hs & Hid & Hb & Hcur & Hnew' & Hne & Hu & Hpw & Hcmp & Hrun0)];
    rewrite Hrun0 in Hrun.
  { injection Hrun as <- _. lia. }
  injection Hrun as _ <-.
  assert (new' = new) as -> by (rewrite Hb in Hnew; simpl in Hnew; congruence).
  rewrite (PUT_with_user R env2
             (set_users (insert userId (mkUser (usr_name u) (Some (env_hash env new 12)))) db)
             su userId (mkPasswordRequest (Some supplied2) (Some new2)) supplied2 new2
             (mkUser (usr_name u) (Some (env_hash env new 12))) (env_hash env new 12));
    try assumption; try reflexivity;
    [|by rewrite Hsess|simpl; apply lookup_insert_eq].
  rewrite Hcmp2. split.
  - intros ->. rewrite bool_decide_eq_false_2 by exact Hne. rewrite Hsound. reflexivity.
  - intros ->. case_bool_decide; eexists; split; reflexivity.
Qed.

Lemma PUT_new_password_takes_effect_witness :
  response_status
    (fst (PUT (R := Empty_set)
            (mkEnv (session_of "alice")
               (Some (mkPasswordRequest (Some "fresh") (Some "fresher")))
               toy_compare toy_hash)
            (snd (PUT (R := Empty_set)
                    (mkEnv (session_of "alice")
                       (Some (mkPasswordRequest (Some "secret") (Some "fresh")))
                       toy_compare toy_hash) alice_store))))
  = Some 200.
Proof.
  apply (PUT_new_password_takes_effect Empty_set
           (mkEnv (session_of "alice")
              (Some (mkPasswordRequest (Some "secret") (Some "fresh")))
              toy_compare toy_hash)
           alice_store
           (NextResponse.json (JMessage "Password updated successfully") None)
           _ "fresh" _ "fresh" "fresher").
  - vm_compute. reflexivity.
  - reflexivity.
  - reflexivity.
  - vm_compute. reflexivity.
  - discriminate.
  - reflexivity.
  - reflexivity.
  - reflexivity.
  - discriminate.
  - reflexivity.
Defined.

End PasswordMore.

(** ** DELETE /api/conversations/[id] *)

Lemma filter_all {A} (P : A -> Prop) `{forall x, Decision (P x)} (l : list A) :
  (forall x, x ∈ l -> P x) -> filter P l = l.
Proof.
  induction l as [|x l IH]; intros Hall; [reflexivity|].
  rewrite filter_cons_True by (apply Hall; left).
  f_equal. apply IH. intros y Hy. apply Hall. by right.
Qed.

Module ConversationByIdFacts.
Import ConversationById.

Ltac delete_unfold :=
  unfold DELETE, internal_server_error, conversation.findUnique, prisma.conversation_delete,
    async_function, try_catch, bind;
  cbv zeta; unfold ret, return_, throw.

(** Where a call ends, by the session, the row and its owner. *)
Lemma DELETE_conversation_cases R onDelete env db :
  (exists res,
      DELETE (R := R) onDelete env db = (Normal res, db)
      /\ (res_status res = 401 \/ res_status res = 403 \/ res_status res = 404
          \/ res_status res = 500))
  \/ exists su row,
       session_user (env_session env) = Some su
       /\ conversations db !! env_id env = Some row
       /\ su_id su = Some (row_userId row)
       /\ DELETE (R := R) onDelete env db
          = (Normal (NextResponse.json (JMessage "Conversation deleted successfully") None),
             set_messages (filter (fun m => msg_conversationId m <> env_id env))
               (set_conversations (delete (env_id env)) db)).
Proof.
  delete_unfold.
  destruct (session_user (env_session env)) as [su|] eqn:Hs;
    [|left; eexists; split; [reflexivity|simpl; tauto]].
  destruct (conversations db !! env_id env) as [row|] eqn:Hl; simpl;
    [|left; eexists; split; [reflexivity|simpl; tauto]].
  case_bool_decide as Hown; [left; eexists; split; [reflexivity|simpl; tauto]|].
  rewrite Hl.
  destruct onDelete.
  - right. exists su, row. by repeat split.
  - case_bool_decide as Hin; [left; eexists; split; [reflexivity|simpl; tauto]|].
    right. exists su, row. repeat split; try done.
    do 2 f_equal. destruct db as [rl cs ms ds us]. unfold set_messages, set_conversations.
    simpl in *. f_equal. symmetry. apply filter_all.
    intros m Hm Heq. apply Hin. rewrite <- Heq. apply list_elem_of_fmap. eauto.
Qed.

(** X19: the deletion tells a missing conversation from a foreign one, and
    changes nothing unless it answers 200.  For a session user, an id no
    stored conversation has is answered with 404 and a stored conversation of
    another user with 403; and after every call answered with a status other
    than 200 the store is as it was, whatever the referential action. *)
Theorem DELETE_conversation_refusals :
  forall (R : Type) onDelete env db,
    (forall su,
        session_user (env_session env) = Some su ->
        conversations db !! env_id env = None ->
        DELETE (R := R) onDelete env db
        = (Normal (NextResponse.json (JMessage "Conversation not found") (Some 404)), db))
    /\ (forall su row,
          session_user (env_session env) = Some su ->
          conversations db !! env_id env = Some row ->
          su_id su <> Some (row_userId row) ->
          DELETE (R := R) onDelete env db
          = (Normal (NextResponse.json (JMessage "Forbidden") (Some 403)), db))
    /\ (forall res db',
          DELETE (R := R) onDelete env db = (Normal res, db') ->
          res_status res <> 200 -> db' = db).
Proof.
  intros R onDelete env db. split; [|split].
  - intros su Hs Hl. delete_unfold. rewrite Hs, Hl. reflexivity.
  - intros su row Hs Hl Hown. delete_unfold. rewrite Hs, Hl. simpl.
    rewrite bool_decide_eq_true_2 by congruence. reflexivity.
  - intros res db' Hrun Hst.
    destruct (DELETE_conversation_cases R onDelete env db)
      as [(res0 & Hrun0 & _)|(su & row & _ & _ & _ & Hrun0)]; rewrite Hrun0 in Hrun.
    + by injection Hrun as _ <-.
    + injection Hrun as <- _. simpl in Hst. congruence.
Qed.

Lemma DELETE_conversation_refusals_witness :
  DELETE (R := Empty_set) Cascade (mkEnv (session_of "bob") "c1") ChatSpec.one_conversation
  = (Normal (NextResponse.json (JMessage "Forbidden") (Some 403)), ChatSpec.one_conversation)
  /\ DELETE (R := Empty_set) Cascade (mkEnv (session_of "bob") "nope")
       ChatSpec.one_conversation
     = (Normal (NextResponse.json (JMessage "Conversation not found") (Some 404)),
        ChatSpec.one_conversation).
Proof.
  split.
  - apply (proj1 (proj2 (DELETE_conversation_refusals Empty_set Cascade
                           (mkEnv (session_of "bob") "c1") ChatSpec.one_conversation))
             (mkSessionUser (Some "bob")) (mkConversationRow "alice" "first words" 4000 5000)).
    + reflexivity.
    + vm_compute. reflexivity.
    + discriminate.
  - apply (proj1 (DELETE_conversation_refusals Empty_set Cascade
                    (mkEnv (session_of "bob") "nope") ChatSpec.one_conversation)
             (mkSessionUser (Some "bob"))).
    + reflexivity.
    + vm_compute. reflexivity.
Defined.

(** X20: only the owner deletes, and a deletion takes the conversation and
    its messages, nothing else.  When the call is answered with 200, under
    either referential action, the conversation was stored and owned by the
    caller; afterwards it is not stored, the other conversations are as they
    were, the messages are the ones of the other conversations, in the same
    order, and the other tables are untouched. *)
Theorem DELETE_conversation_effect :
  forall (R : Type) onDelete env db res db',
    DELETE (R := R) onDelete env db = (Normal res, db') ->
    res_status res = 200 ->
    (exists row,
        conversations db !! env_id env = Some row
        /\ session_user_id (env_session env) = Some (row_userId row))
    /\ conversations db' !! env_id env = None
    /\ (forall k, k <> env_id env -> conversations db' !! k = conversations db !! k)
    /\ messages db' = filter (fun m => msg_conversationId m <> env_id env) (messages db)
    /\ rateLimits db' = rateLimits db
    /\ documents db' = documents db
    /\ users db' = users db.
Proof.
  intros R onDelete env db res db' Hrun Hst.
  destruct (DELETE_conversation_cases R onDelete env db)
    as [(res0 & Hrun0 & Hst0)|(su & row & Hs & Hl & Hown & Hrun0)]; rewrite Hrun0 in Hrun.
  - injection Hrun as <- _. lia.
  - injection Hrun as _ <-. simpl. split; [|split; [|split]].
    + exists row. split; [exact Hl|]. unfold session_user_id. rewrite Hs. exact Hown.
    + apply lookup_delete_eq.
    + intros k Hk. by apply lookup_delete_ne.
    + by repeat split.
Qed.

Lemma DELETE_conversation_effect_witness :
  conversations
    (snd (DELETE (R := Empty_set) Cascade (mkEnv (session_of "alice") "c1")
            ChatSpec.one_conversation)) !! "c1" = None.
Proof.
  apply (DELETE_conversation_effect Empty_set Cascade (mkEnv (session_of "alice") "c1")
           ChatSpec.one_conversation
           (NextResponse.json (JMessage "Conversation deleted successfully") None)).
  - vm_compute. reflexivity.
  - reflexivity.
Defined.

(** X21: the deletion keeps referential integrity under either referential
    action: when every stored message belongs to a stored conversation
    before the call, the same holds after it. *)
Theorem DELETE_conversation_leaves_no_orphans :
  forall (R : Type) onDelete env db,
    messages_have_conversations db ->
    messages_have_conversations (snd (DELETE (R := R) onDelete env db)).
Proof.
  intros R onDelete env db Hdb.
  destruct (DELETE_conversation_cases R onDelete env db)
    as [(res0 & -> & _)|(su & row & _ & _ & _ & ->)]; [exact Hdb|].
  intros m Hm. simpl in *. apply list_elem_of_filter in Hm as [Hne Hm].
  rewrite lookup_delete_ne by congruence. by apply Hdb.
Qed.

Lemma DELETE_conversation_leaves_no_orphans_witness :
  messages_have_conversations two_threads
  /\ messages two_threads
     = [mkMessage "m1" "c1" user "Hello" [] 5000; mkMessage "m2" "c2" user "Again" [] 7000]
  /\ messages (snd (DELETE (R := Empty_set) Cascade (mkEnv (session_of "alice") "c1")
                      two_threads))
     = [mkMessage "m2" "c2" user "Again" [] 7000]
  /\ messages_have_conversations
       (snd (DELETE (R := Empty_set) Cascade (mkEnv (session_of "alice") "c1") two_threads))
  /\ DELETE (R := Empty_set) Restrict (mkEnv (session_of "alice") "c1") two_threads
     = (Normal (NextResponse.json (JMessage "Internal server error") (Some 500)), two_threads)
  /\ messages_have_conversations
       (snd (DELETE (R := Empty_set) Restrict (mkEnv (session_of "alice") "c1") two_threads)).
Proof.
  assert (H : messages_have_conversations two_threads).
  { intros m Hm. unfold two_threads in Hm. simpl in Hm.
    apply elem_of_cons in Hm as [->|Hm]; [vm_compute; eauto|].
    apply elem_of_cons in Hm as [->|Hm]; [vm_compute; eauto|].
    by apply elem_of_nil in Hm. }
  split; [exact H|]. split; [reflexivity|]. split; [vm_compute; reflexivity|].
  split; [|split; [vm_compute; reflexivity|]].
  - exact (DELETE_conversation_leaves_no_orphans Empty_set Cascade
             (mkEnv (session_of "alice") "c1") two_threads H).
  - exact (DELETE_conversation_leaves_no_orphans Empty_set Restrict
             (mkEnv (session_of "alice") "c1") two_threads H).
Defined.

End ConversationByIdFacts.

(** ** A chat turn and the deletion of its conversation *)

Module ChatAndDelete.
Import Chat ChatSpec.

Lemma POST_unknown_conversation R env db su k msg userId :
  chat_call env su (Some k) msg ->
  k <> EmptyString ->
  conversations db !! k = None ->
  su_id su = Some userId ->
  POST (R := R) env db
  = (Normal (NextResponse.json (JMessage "Forbidden") (Some 403)), db).
Proof.
  intros (Hs & Hb & Hm) Hk Hl Hid.
  ChatFacts.chat_unfold. cbv zeta. rewrite Hs, Hb. cbn beta iota.
  destruct msg as [|a m]; [congruence|]. cbn [message conversationId]. cbn beta iota.
  destruct k as [|b k]; [congruence|]. cbn beta iota. rewrite Hl, Hid.
  cbn [fmap option_fmap option_map].
  rewrite bool_decide_eq_true_2 by discriminate. reflexivity.
Qed.

(** X22: a deleted conversation cannot be continued.  After a deletion
    answered with 200, under either referential action, a chat call of any
    user with an id that names the deleted conversation is answered with
    403 and stores nothing: the conversation is not created again. *)
Theorem POST_after_DELETE_is_forbidden :
  forall (R : Type) onDelete denv db res db' env su msg userId,
    ConversationById.DELETE (R := R) onDelete denv db = (Normal res, db') ->
    res_status res = 200 ->
    ConversationById.env_id denv <> EmptyString ->
    chat_call env su (Some (ConversationById.env_id denv)) msg ->
    su_id su = Some userId ->
    POST (R := R) env db'
    = (Normal (NextResponse.json (JMessage "Forbidden") (Some 403)), db').
Proof.
  intros R onDelete denv db res db' env su msg userId Hdel Hst Hk Hcall Hid.
  apply (POST_unknown_conversation R env db' su _ msg userId Hcall Hk); [|exact Hid].
  destruct (ConversationByIdFacts.DELETE_conversation_cases R onDelete denv db)
    as [(res0 & Hrun0 & Hst0)|(su0 & row & _ & _ & _ & Hrun0)]; rewrite Hrun0 in Hdel.
  - injection Hdel as <- _. lia.
  - injection Hdel as _ <-. simpl. apply lookup_delete_eq.
Qed.

Lemma POST_after_DELETE_is_forbidden_witness :
  status_of
    (fst (POST (R := Empty_set) (hello (Some "c1") refusing 6000)
            (snd (ConversationById.DELETE (R := Empty_set) Cascade
                    (ConversationById.mkEnv (session_of "alice") "c1") one_conversation))))
  = Some 403.
Proof.
  rewrite (POST_after_DELETE_is_forbidden Empty_set Cascade
             (ConversationById.mkEnv (session_of "alice") "c1") one_conversation
             (NextResponse.json (JMessage "Conversation deleted successfully") None)
             _ (hello (Some "c1") refusing 6000) alice "hello" "alice").
  - reflexivity.
  - vm_compute. reflexivity.
  - reflexivity.
  - discriminate.
  - repeat split. discriminate.
  - reflexivity.
Defined.

(** X23: opening a conversation and deleting it gives the store back.  On a
    store where every message belongs to a stored conversation, a chat call
    without a conversation id that succeeds, followed by the deletion, with
    cascade, of the conversation it returned by the same session, is
    answered with 200 and leaves exactly the store from before the chat
    call. *)
Theorem DELETE_undoes_new_conversation :
  forall (R : Type) env db su cid msg userId res db1,
    chat_call env su cid msg ->
    truthy cid = false ->
    su_id su = Some userId ->
    messages_have_conversations db ->
    POST (R := R) env db = (Normal res, db1) ->
    res_status res = 200 ->
    exists k am,
      res_body res = JChat k am
      /\ ConversationById.DELETE (R := R) Cascade
           (ConversationById.mkEnv (env_session env) k) db1
         = (Normal (NextResponse.json (JMessage "Conversation deleted successfully") None), db).
Proof.
  intros R env db su cid msg userId res db1 Hcall Hcid Hid Hdb Hrun Hst.
  pose (k := new_id (dom (conversations db))).
  pose (row := mkConversationRow userId (String.substring 0 50 msg)
                 (env_at_conversation env) (env_at_conversation env)).
  assert (Hfresh : conversations db !! k = None).
  { apply not_elem_of_dom. apply is_fresh. }
  assert (Hres : resolved env su msg db cid k row (set_conversations (insert k row) db)).
  { by econstructor. }
  destruct (ChatFacts.POST_turn_success R env db su cid msg k row _ res db1
              Hcall Hres Hrun Hst) as (content & sources & -> & ->).
  eexists _, _. split; [reflexivity|].
  destruct Hcall as (Hs & _ & _).
  ConversationByIdFacts.delete_unfold.
  cbn [ConversationById.env_session ConversationById.env_id].
  rewrite Hs. unfold with_turn, with_user_message.
  cbn [conversations messages set_conversations set_messages].
  rewrite lookup_insert_eq. simpl.
  rewrite bool_decide_eq_false_2 by (intros H; apply H; congruence).
  cbn [conversations set_conversations set_messages]. rewrite lookup_insert_eq.
  cbn beta iota. f_equal.
  destruct db as [rl cs ms ds us]. unfold set_messages, set_conversations.
  simpl in *. f_equal.
  - rewrite !delete_insert_eq. by apply delete_id.
  - rewrite !filter_app. rewrite !filter_cons_False, !filter_nil by (intros H; by apply H).
    rewrite !app_nil_r. apply filter_all.
    intros m Hm Heq. destruct (Hdb m Hm) as [r Hr]. simpl in Hr.
    rewrite Heq in Hr. fold k in Hr. congruence.
Qed.

Lemma DELETE_undoes_new_conversation_witness :
  exists k am,
    JChat "0" (mkMessage "1" "0" assistant apology [] 1002) = JChat k am
    /\ ConversationById.DELETE (R := Empty_set) Cascade
         (ConversationById.mkEnv (session_of "alice") k)
         (snd (POST (R := Empty_set) (hello None refusing 6000) one_conversation))
       = (Normal (NextResponse.json (JMessage "Conversation deleted successfully") None),
          one_conversation).
Proof.
  apply (DELETE_undoes_new_conversation Empty_set (hello None refusing 6000) one_conversation
           alice None "hello" "alice"
           (NextResponse.json (JChat "0" (mkMessage "1" "0" assistant apology [] 1002)) None)
           (snd (POST (R := Empty_set) (hello None refusing 6000) one_conversation))).
  - repeat split. discriminate.
  - reflexivity.
  - reflexivity.
  - intros m Hm. vm_compute in Hm. inversion Hm.
  - vm_compute. reflexivity.
  - reflexivity.
Defined.

End ChatAndDelete.

(** ** DELETE /api/documents/[id] *)

Module DocumentByIdFacts.
Import DocumentById.

Ltac delete_unfold :=
  unfold DELETE, unlink, internal_server_error, prisma.document_findUnique,
    prisma.document_delete, async_function, try_catch, bind;
  cbv zeta; unfold ret, return_, throw.

Lemma find_some_id id (ds : list Document) d :
  find (fun d => bool_decide (doc_id d = id)) ds = Some d -> d ∈ ds /\ doc_id d = id.
Proof.
  intros H. apply find_some in H as [Hin Hid].
  split; [by apply list_elem_of_In|]. by apply bool_decide_eq_true in Hid.
Qed.

(** Where a call ends, by the session, the row and its owner. *)
Lemma DELETE_document_cases R env db :
  (exists res,
      DELETE (R := R) env db = (Normal res, db)
      /\ (res_status res = 401 \/ res_status res = 403 \/ res_status res = 404))
  \/ exists su d,
       session_user (env_session env) = Some su
       /\ find (fun d => bool_decide (doc_id d = env_id env)) (documents db) = Some d
       /\ su_id su = Some (doc_userId d)
       /\ DELETE (R := R) env db
          = (Normal (NextResponse.json (JMessage "Document deleted successfully") None),
             set_documents (filter (fun d => doc_id d <> env_id env)) db).
Proof.
  delete_unfold.
  destruct (session_user (env_session env)) as [su|] eqn:Hs;
    [|left; eexists; split; [reflexivity|simpl; tauto]].
  destruct (find _ (documents db)) as [d|] eqn:Hfind; cbn beta iota;
    [|left; eexists; split; [reflexivity|simpl; tauto]].
  case_bool_decide as Hown; [left; eexists; split; [reflexivity|simpl; tauto]|].
  right. exists su, d. repeat split; try done.
  destruct (env_unlink_ok env); cbn beta iota; rewrite Hfind; reflexivity.
Qed.

(** X24: a file that cannot be removed from the disk does not keep the row:
    the outcome of the deletion, response and store, is the same whether
    [unlink] goes through or fails. *)
Theorem DELETE_document_ignores_unlink_failure :
  forall (R : Type) session id db,
    DELETE (R := R) (mkEnv session id false) db = DELETE (R := R) (mkEnv session id true) db.
Proof.
  intros R session id db.
  destruct (DELETE_document_cases R (mkEnv session id true) db)
    as [(res & Hrun & Hst)|(su & d & Hs & Hfind & Hown & Hrun)]; rewrite Hrun.
  - revert Hrun. delete_unfold. cbn [env_session env_id env_unlink_ok].
    destruct (session_user session) as [su|]; [|done].
    destruct (find _ (documents db)) as [d|] eqn:Hfind; cbn beta iota; [|done].
    case_bool_decide; [done|]. cbn beta iota. rewrite Hfind. cbn beta iota.
    intros [= <- _]. simpl in Hst. lia.
  - destruct (DELETE_document_cases R (mkEnv session id false) db)
      as [(res & Hrun' & Hst)|(su' & d' & Hs' & Hfind' & Hown' & Hrun')]; [|exact Hrun'].
    exfalso. revert Hrun'. delete_unfold.
    cbn [env_session env_id env_unlink_ok] in *. rewrite Hs, Hfind. cbn beta iota.
    rewrite bool_decide_eq_false_2 by (intros H; apply H; congruence).
    cbn beta iota. rewrite Hfind. intros [= <- _]. simpl in Hst. lia.
Qed.

(** X25: only the owner deletes a document, and a deletion takes that row
    and nothing else.  A call answered with a status other than 200 has
    changed nothing.  When the call is answered with 200, a document with
    the id was stored and owned by the caller; afterwards no stored document
    has the id, the other documents are kept in order, and the other tables
    are untouched. *)
Theorem DELETE_document_effect :
  forall (R : Type) env db res db',
    DELETE (R := R) env db = (Normal res, db') ->
    (res_status res <> 200 -> db' = db)
    /\ (res_status res = 200 ->
        (exists d, d ∈ documents db /\ doc_id d = env_id env
                   /\ session_user_id (env_session env) = Some (doc_userId d))
        /\ documents db' = filter (fun d => doc_id d <> env_id env) (documents db)
        /\ (forall d, d ∈ documents db' -> doc_id d <> env_id env)
        /\ rateLimits db' = rateLimits db
        /\ conversations db' = conversations db
        /\ messages db' = messages db
        /\ users db' = users db).
Proof.
  intros R env db res db' Hrun.
  destruct (DELETE_document_cases R env db)
    as [(res0 & Hrun0 & Hst0)|(su & d & Hs & Hfind & Hown & Hrun0)]; rewrite Hrun0 in Hrun.
  - injection Hrun as <- <-. split; [reflexivity|]. lia.
  - injection Hrun as <- <-. split; [simpl; congruence|]. intros _.
    destruct (find_some_id _ _ _ Hfind) as [Hin Hid].
    split; [|split; [|split]].
    + exists d. repeat split; try done. unfold session_user_id. rewrite Hs. exact Hown.
    + reflexivity.
    + intros d' Hd'. simpl in Hd'. by apply list_elem_of_filter in Hd' as [? _].
    + by repeat split.
Qed.

Lemma DELETE_document_effect_witness :
  documents
    (snd (DELETE (R := Empty_set) (mkEnv (session_of "alice") "d1" false)
            (mkDb ∅ ∅ []
               [mkDocument "d1" "alice" "1-a.pdf" "a.pdf" "application/pdf" 10 "processing";
                mkDocument "d2" "bob" "2-b.pdf" "b.pdf" "application/pdf" 20 "processing"]
               ∅)))
  = [mkDocument "d2" "bob" "2-b.pdf" "b.pdf" "application/pdf" 20 "processing"].
Proof.
  destruct (DELETE_document_effect Empty_set (mkEnv (session_of "alice") "d1" false)
              (mkDb ∅ ∅ []
                 [mkDocument "d1" "alice" "1-a.pdf" "a.pdf" "application/pdf" 10 "processing";
                  mkDocument "d2" "bob" "2-b.pdf" "b.pdf" "application/pdf" 20 "processing"]
                 ∅)
              (NextResponse.json (JMessage "Document deleted successfully") None)
              _ eq_refl) as [_ H].
  destruct (H eq_refl) as (_ & Hdocs & _). exact Hdocs.
Defined.

Lemma find_fresh_last id (ds : list Document) d :
  id ∉ map doc_id ds -> doc_id d = id ->
  find (fun d => bool_decide (doc_id d = id)) (ds ++ [d]) = Some d.
Proof.
  intros Hfresh Hid. induction ds as [|x ds IH]; simpl.
  - by rewrite bool_decide_eq_true_2.
  - rewrite bool_decide_eq_false_2.
    + apply IH. intros Hin. apply Hfresh. simpl. by right.
    + intros Hx. apply Hfresh. simpl. rewrite Hx. by left.
Qed.

(** X26: deleting an uploaded document gives the store back.  After an
    upload answered with 200, the deletion of the document it returned, by
    the same session, is answered with 200 and leaves exactly the store from
    before the upload, whether or not the file can be unlinked. *)
Theorem DELETE_undoes_upload :
  forall (R : Type) env db res db1,
    Upload.POST (R := R) env db = (Normal res, db1) ->
    res_status res = 200 ->
    exists id name status,
      res_body res = JUpload id name status
      /\ forall unlink_ok,
           DELETE (R := R) (mkEnv (Upload.env_session env) id unlink_ok) db1
           = (Normal (NextResponse.json (JMessage "Document deleted successfully") None), db).
Proof.
  intros R env db res db1 Hrun Hst.
  destruct (UploadMore.POST_upload_cases R env db)
    as [(res0 & Hrun0 & Hst0)|(su & userId & file & Hs & Hid & Hform & Hrun0)];
    rewrite Hrun0 in Hrun.
  { injection Hrun as <- _. lia. }
  set (d := UploadSpec.created_document env userId file db) in *.
  assert (Hfresh : doc_id d ∉ map doc_id (documents db)).
  { unfold d, UploadSpec.created_document, new_id. cbn [doc_id]. intros Hin.
    apply (is_fresh (list_to_set (map doc_id (documents db)) : gset string)).
    apply elem_of_list_to_set. exact Hin. }
  assert (Hres : res = NextResponse.json
                         (JUpload (doc_id d) (UploadSpec.stored_filename env file) "processing")
                         None
                 /\ db1 = set_documents (fun ds => ds ++ [d]) db).
  { destruct (Upload.env_network env (UploadSpec.trigger_request env userId file db));
      first [discriminate Hrun | by injection Hrun as <- <-]. }
  destruct Hres as [-> ->]. eexists _, _, _. split; [reflexivity|].
  intros unlink_ok. delete_unfold. cbn [env_session env_id env_unlink_ok].
  rewrite Hs. cbn [documents set_documents].
  rewrite (find_fresh_last (doc_id d) (documents db) d Hfresh eq_refl). cbn beta iota.
  rewrite bool_decide_eq_false_2 by (intros H; apply H; rewrite Hid; reflexivity).
  destruct unlink_ok; cbn beta iota; cbn [documents set_documents];
    rewrite (find_fresh_last (doc_id d) (documents db) d Hfresh eq_refl);
    f_equal; destruct db as [rl cs ms ds us]; unfold set_documents; simpl in *; f_equal;
    rewrite filter_app, filter_cons_False, filter_nil, app_nil_r
      by (intros H; by apply H);
    apply filter_all; intros x Hx Hxid; apply Hfresh; rewrite <- Hxid;
    apply list_elem_of_fmap; eauto.
Qed.

Lemma DELETE_undoes_upload_witness :
  exists id name status,
    JUpload "0" "1700000000000-report.pdf" "processing" = JUpload id name status
    /\ forall unlink_ok,
         DELETE (R := Empty_set) (mkEnv (session_of "alice") id unlink_ok)
           (snd (Upload.POST (R := Empty_set)
                   (UploadSpec.upload_by_alice (fun _ => Fails "ECONNREFUSED"))
                   (mkDb ∅ ∅ [] [] ∅)))
         = (Normal (NextResponse.json (JMessage "Document deleted successfully") None),
            mkDb ∅ ∅ [] [] ∅).
Proof.
  apply (DELETE_undoes_upload Empty_set
           (UploadSpec.upload_by_alice (fun _ => Fails "ECONNREFUSED")) (mkDb ∅ ∅ [] [] ∅)
           (NextResponse.json (JUpload "0" "1700000000000-report.pdf" "processing") None)
           (snd (Upload.POST (R := Empty_set)
                   (UploadSpec.upload_by_alice (fun _ => Fails "ECONNREFUSED"))
                   (mkDb ∅ ∅ [] [] ∅)))).
  - vm_compute. reflexivity.
  - reflexivity.
Defined.

End DocumentByIdFacts.

(** ** GET /api/conversations *)

#[global] Instance updatedAt_desc_trans : Transitive updatedAt_desc.
Proof. unfold updatedAt_desc. intros c1 c2 c3. lia. Qed.

#[global] Instance updatedAt_desc_total : Total updatedAt_desc.
Proof. unfold updatedAt_desc. intros c1 c2. lia. Qed.

Module ConversationsFacts.
Import Conversations.

(** The caller's conversations, as the table holds them. *)
Lemma own_rows userId (db : Db) c :
  c ∈ filter (where_userId (Some userId))
        ((fun kv => conversation_of (fst kv) (snd kv)) <$> map_to_list (conversations db))
  <-> exists row,
        conversations db !! conv_id c = Some row
        /\ c = conversation_of (conv_id c) row
        /\ row_userId row = userId.
Proof.
  rewrite list_elem_of_filter, list_elem_of_fmap. split.
  - intros (Hown & [id row] & -> & Hin). apply elem_of_map_to_list in Hin.
    exists row. simpl in *. repeat split; assumption.
  - intros (row & Hl & Hc & Hown). split.
    + rewrite Hc. exact Hown.
    + exists (conv_id c, row). split; [exact Hc|]. by apply elem_of_map_to_list.
Qed.

Lemma GET_run R session db su :
  session_user session = Some su ->
  GET (R := R) session db
  = (Normal (json (LConversations
                     (take 20 (merge_sort updatedAt_desc
                                 (filter (where_userId (su_id su))
                                    ((fun kv => conversation_of (fst kv) (snd kv))
                                       <$> map_to_list (conversations db)))))) None),
     db).
Proof.
  intros Hs. unfold GET, prisma.conversation_findMany, async_function, try_catch, bind.
  rewrite Hs. reflexivity.
Qed.

(** X27: the list of conversations is the caller's own, newest first, and at
    most 20 long.  For a session user with an id the call is answered with
    200 and changes nothing; every listed conversation is stored under its
    id and owned by the caller, no conversation is listed twice, and the
    list is ordered by [updatedAt], latest first. *)
Theorem GET_lists_own_conversations :
  forall (R : Type) session db su userId,
    session_user session = Some su ->
    su_id su = Some userId ->
    exists l,
      GET (R := R) session db = (Normal (json (LConversations l) None), db)
      /\ (length l <= 20)%nat
      /\ StronglySorted updatedAt_desc l
      /\ NoDup (conv_id <$> l)
      /\ (forall c, c ∈ l ->
                    conv_userId c = userId
                    /\ exists row, conversations db !! conv_id c = Some row
                                   /\ c = conversation_of (conv_id c) row).
Proof.
  intros R session db su userId Hs Hid.
  rewrite (GET_run R session db su Hs), Hid.
  set (rows := (fun kv => conversation_of (fst kv) (snd kv)) <$> map_to_list (conversations db)).
  set (own := filter (where_userId (Some userId)) rows).
  eexists. split; [reflexivity|].
  assert (Hsorted : StronglySorted updatedAt_desc (merge_sort updatedAt_desc own))
    by (apply StronglySorted_merge_sort; apply _).
  split; [rewrite length_take; lia|]. split; [|split].
  - rewrite <- (take_drop 20 (merge_sort updatedAt_desc own)) in Hsorted.
    by apply StronglySorted_app_1_l in Hsorted.
  - apply (sublist_NoDup _ (conv_id <$> merge_sort updatedAt_desc own));
      [|apply fmap_sublist, sublist_take].
    rewrite (merge_sort_Permutation updatedAt_desc own).
    apply (sublist_NoDup _ (conv_id <$> rows)); [|apply fmap_sublist, sublist_filter].
    unfold rows. rewrite <- list_fmap_compose.
    apply (NoDup_fst_map_to_list (conversations db)).
  - intros c Hc. apply subseteq_take in Hc.
    rewrite (merge_sort_Permutation updatedAt_desc own) in Hc.
    apply own_rows in Hc as (row & Hl & Hc & Hown). split; [by rewrite Hc|eauto].
Qed.

(** X28: the list leaves out only what is older.  Every stored conversation
    of the caller is listed, unless the list is full (20 entries) and each
    of its entries was updated at least as late as the one left out; so a
    caller with at most 20 conversations gets them all. *)
Theorem GET_lists_most_recent :
  forall (R : Type) session db su userId l id row,
    session_user session = Some su ->
    su_id su = Some userId ->
    fst (GET (R := R) session db) = Normal (json (LConversations l) None) ->
    conversations db !! id = Some row ->
    row_userId row = userId ->
    conversation_of id row ∈ l
    \/ (length l = 20%nat /\ forall c, c ∈ l -> row_updatedAt row <= conv_updatedAt c).
Proof.
  intros R session db su userId l id row Hs Hid Hrun Hl Hown.
  rewrite (GET_run R session db su Hs), Hid in Hrun. simpl in Hrun.
  injection Hrun as <-.
  set (rows := (fun kv => conversation_of (fst kv) (snd kv)) <$> map_to_list (conversations db)).
  set (own := filter (where_userId (Some userId)) rows).
  assert (Hin : conversation_of id row ∈ merge_sort updatedAt_desc own).
  { rewrite (merge_sort_Permutation updatedAt_desc own). apply own_rows.
    exists row. by repeat split. }
  assert (Hsorted : StronglySorted updatedAt_desc (merge_sort updatedAt_desc own))
    by (apply StronglySorted_merge_sort; apply _).
  rewrite <- (take_drop 20 (merge_sort updatedAt_desc own)) in Hin, Hsorted.
  apply elem_of_app in Hin as [Hin|Hin]; [by left|right]. split.
  - apply length_take_le.
    destruct (decide (20 <= length (merge_sort updatedAt_desc own))%nat) as [Hle|Hgt];
      [exact Hle|].
    rewrite drop_ge in Hin by lia. inversion Hin.
  - intros c Hc.
    exact (StronglySorted_app_1_elem_of _ _ _ _ _ Hsorted Hc Hin).
Qed.

Lemma GET_lists_own_conversations_witness :
  exists l,
    GET (R := Empty_set) (session_of "alice") two_users
    = (Normal (json (LConversations l) None), two_users)
    /\ (forall c, c ∈ l -> conv_userId c = "alice").
Proof.
  destruct (GET_lists_own_conversations Empty_set (session_of "alice") two_users
              (mkSessionUser (Some "alice")) "alice" eq_refl eq_refl)
    as (l & Hrun & _ & _ & _ & Hown).
  exists l. split; [exact Hrun|]. intros c Hc. exact (proj1 (Hown c Hc)).
Defined.

Lemma GET_lists_most_recent_witness :
  conversation_of "c1" (mkConversationRow "alice" "first" 4000 5000)
  ∈ [mkConversation "c2" "alice" "second" 4500 7000;
     mkConversation "c1" "alice" "first" 4000 5000].
Proof.
  destruct (GET_lists_most_recent Empty_set (session_of "alice") two_users
              (mkSessionUser (Some "alice")) "alice"
              [mkConversation "c2" "alice" "second" 4500 7000;
               mkConversation "c1" "alice" "first" 4000 5000]
              "c1" (mkConversationRow "alice" "first" 4000 5000))
    as [Hin|[Hlen _]].
  - reflexivity.
  - reflexivity.
  - vm_compute. reflexivity.
  - vm_compute. reflexivity.
  - reflexivity.
  - exact Hin.
  - discriminate Hlen.
Defined.

End ConversationsFacts.

(** ** PUT /api/user/profile *)

Module ProfileFacts.
Import Profile.




End ProfileFacts.
